(** * YouB: the delivery pipeline of the YouTube-to-Telegram bot

    The repository holds two revisions of one program: [src/index.js]
    (module [V1] below) and the later "FIXED" revision
    [src/unnamed/part_000] (module [V2]).  Both are embedded as written:
    the text handler registered with [bot.on('text', ...)], [streamVideo]
    and [downloadVideo].

    Embedding.
    - A JavaScript string is a sequence of UTF-16 code units: [jsstring]
      is [list N], so that [slice], [padStart], [trim] and the
      [/[^a-z0-9]/gi] replacement act on code units as they do in the
      engine.
    - Numbers: the only numbers the pipeline manipulates are the duration
      ([Number(v.lengthSeconds)]), the clock and a file size.  [number]
      has the integers and [NaN]; integers stand for doubles in the safe
      range (below 2^53), where [Math.floor(d / 60)], [d % 60] and
      [String(d)] are exact.  The size in megabytes is a rational ([Q]):
      dividing a safe integer by 2^20 is exact in binary floating point.
    - Effects: an [async] function is a state-and-exception computation
      [io A] over a [world] (the chat, the scratch directory, a step
      counter and the trace of calls made to the collaborators).  A
      rejected promise that is awaited is a [Throw]; [try]/[catch] keeps
      the state reached when the exception was raised.
    - The collaborators (Telegram transport, ytdl-core, the clock, the
      built-in [Number]) are not code of this repository: their answers
      come from an [env], indexed by the step at which they are asked, so
      that a theorem quantifies over the behaviours they can show and
      states which ones it assumes. *)

From Stdlib Require Import ZArith NArith QArith Qround List Bool Lia.
From Stdlib Require String Ascii.
Import String.StringSyntax.
Import ListNotations.

Local Open Scope string_scope.
Local Open Scope list_scope.

(** ** JavaScript strings *)

Module JS.

Definition jsstring := list N.

(** An ASCII literal of the source, one code unit per character. *)
Definition lit (s : String.string) : jsstring :=
  map Ascii.N_of_ascii (String.list_ascii_of_string s).

(** The line feed that the source writes as a backslash followed by n. *)
Definition nl : jsstring := [10%N].

Definition jsstring_dec (a b : jsstring) : {a = b} + {a <> b} :=
  list_eq_dec N.eq_dec a b.

Definition str_eqb (a b : jsstring) : bool :=
  if jsstring_dec a b then true else false.

(** [s.slice(0, n)] *)
Definition slice0 (n : nat) (s : jsstring) : jsstring := firstn n s.

(** WhiteSpace and LineTerminator code units, as [String.prototype.trim]
    strips them. *)
Definition is_space (c : N) : bool :=
  existsb (N.eqb c)
    [9; 10; 11; 12; 13; 32; 160; 5760; 8232; 8233; 8239; 8287; 12288; 65279]%N
  || ((8192 <=? c) && (c <=? 8202))%N.

Fixpoint trimStart (s : jsstring) : jsstring :=
  match s with
  | c :: s' => if is_space c then trimStart s' else s
  | [] => []
  end.

Definition trim (s : jsstring) : jsstring :=
  rev (trimStart (rev (trimStart s))).

(** [s.padStart(n, pad)] *)
Definition padStart (n : nat) (pad s : jsstring) : jsstring :=
  let len := List.length s in
  if (n <=? len)%nat then s
  else match pad with
       | [] => s
       | _ => firstn (n - len) (concat (repeat pad (n - len))) ++ s
       end.

Definition is_alnum (c : N) : bool :=
  ((48 <=? c) && (c <=? 57) || (65 <=? c) && (c <=? 90)
   || (97 <=? c) && (c <=? 122))%N.

(** [s.replace(/[^a-z0-9]/gi, '_')]: without the [u] flag a code unit
    above 127 never folds to an ASCII letter, so exactly the ASCII letters
    and digits are kept. *)
Definition replace_non_alnum (s : jsstring) : jsstring :=
  map (fun c => if is_alnum c then c else 95%N) s.

(** ** Numbers *)

Inductive number := NaN | Int (z : Z).

Definition digit (d : N) : N := (48 + d)%N.

Fixpoint uint_units (d : Decimal.uint) : jsstring :=
  match d with
  | Decimal.Nil => []
  | Decimal.D0 r => digit 0 :: uint_units r
  | Decimal.D1 r => digit 1 :: uint_units r
  | Decimal.D2 r => digit 2 :: uint_units r
  | Decimal.D3 r => digit 3 :: uint_units r
  | Decimal.D4 r => digit 4 :: uint_units r
  | Decimal.D5 r => digit 5 :: uint_units r
  | Decimal.D6 r => digit 6 :: uint_units r
  | Decimal.D7 r => digit 7 :: uint_units r
  | Decimal.D8 r => digit 8 :: uint_units r
  | Decimal.D9 r => digit 9 :: uint_units r
  end.

(** The decimal numeral of an integer, as [Number::toString] prints it. *)
Definition decimal (z : Z) : jsstring :=
  match z with
  | Z0 => [digit 0]
  | Zpos p => uint_units (Pos.to_uint p)
  | Zneg p => 45%N :: uint_units (Pos.to_uint p)
  end.

(** ToString: [String(x)] and the conversion of [${x}] in a template. *)
Definition ToString (x : number) : jsstring :=
  match x with
  | NaN => lit "NaN"
  | Int z => decimal z
  end.

(** [x <= y]: false as soon as one side is [NaN]. *)
Definition le (x y : number) : bool :=
  match x, y with
  | Int a, Int b => (a <=? b)%Z
  | _, _ => false
  end.

(** [Math.floor(x / k)] for an integer constant [k > 0]. *)
Definition floor_div (x : number) (k : Z) : number :=
  match x with
  | NaN => NaN
  | Int z => Int (z / k)%Z
  end.

(** [x % k]: the remainder takes the sign of the dividend. *)
Definition rem (x : number) (k : Z) : number :=
  match x with
  | NaN => NaN
  | Int z => Int (Z.rem z k)
  end.

(** [x.toFixed(1)] for a rational [x >= 0]: the tenths [n] nearest to [x],
    the larger one on a tie, printed with one decimal. *)
Definition toFixed1 (x : Q) : jsstring :=
  let n := Qfloor (x * 10 + (1 # 2))%Q in
  decimal (n / 10)%Z ++ lit "." ++ decimal (n mod 10)%Z.

End JS.

Import JS.

(** ** The host: chat, scratch directory, collaborators *)

Module Host.

(** A JavaScript [Error]; only its [message] is ever read. *)
Record error := Error { message : jsstring }.

Inductive outcome (A : Type) :=
| Return (a : A)
| Throw (err : error).
Arguments Return {A} a.
Arguments Throw {A} err.

(** What the chat shows for each message the bot has sent, by
    [message_id]. *)
Inductive chat_message :=
| Text (text : jsstring)
| Video (caption : jsstring)
| Deleted.

(** The second argument of [sendVideo]: a live stream opened on a URL, or
    [{ source: filepath }]. *)
Inductive source :=
| FromStream (url : jsstring)
| FromFile (path : jsstring).

Inductive callee := Stream | Download.

(** Calls made to the collaborators, in order.  [Enter] is a ghost event:
    it records the entry into [streamVideo] or [downloadVideo] with the
    arguments actually passed ([statusMsg] is [None] when the caller
    passed nothing, that is [undefined]). *)
Inductive event :=
| Enter (f : callee) (url title : jsstring) (duration : number)
        (statusMsg : option nat)
| GetInfo (url : jsstring)
| SendMessage (text : jsstring)
| EditMessageText (message_id : nat) (text : jsstring)
| DeleteMessage (message_id : nat)
| SendVideo (src : source) (caption : jsstring)
| Ytdl (url : jsstring) (mp4 : bool) (quality : list jsstring)
| CreateWriteStream (path : jsstring)
| Pipe (path : jsstring)
| StatSync (path : jsstring)
| ExistsSync (path : jsstring)
| UnlinkSync (path : jsstring)
| Console (label : jsstring) (err : error).

Record videoDetails := { title : jsstring; lengthSeconds : jsstring }.

(** How [stream.pipe(write)] ends: the sink finishes with [size] bytes
    written, or the source or the sink reports an error, the partial file
    being on disk or not. *)
Inductive transfer_outcome :=
| Finish (size : N)
| Fail (err : error) (partial : option N).

(** The collaborators.  [transport n ev] is the transport's answer to the
    call [ev] made at step [n] ([None]: accepted). *)
Record env := {
  validateURL : jsstring -> bool;
  Number : jsstring -> number;
  getInfo : nat -> jsstring -> outcome videoDetails;
  transport : nat -> event -> option error;
  transfer : nat -> transfer_outcome;
  Date_now : nat -> Z;
  tempDir : jsstring
}.

Record world := {
  chat : list chat_message;
  files : list (jsstring * N);
  steps : nat;
  trace : list event
}.

Definition io (A : Type) := world -> outcome A * world.

Definition ret {A} (a : A) : io A := fun w => (Return a, w).

Definition throw {A} (err : error) : io A := fun w => (Throw err, w).

Definition bind {A B} (m : io A) (k : A -> io B) : io B :=
  fun w => match m w with
           | (Return a, w') => k a w'
           | (Throw err, w') => (Throw err, w')
           end.

(** [try { m } catch (err) { h err }] *)
Definition try_catch {A} (m : io A) (h : error -> io A) : io A :=
  fun w => match m w with
           | (Return a, w') => (Return a, w')
           | (Throw err, w') => h err w'
           end.

(** A promise that is not awaited: its rejection reaches nobody. *)
Definition detached {A} (m : io A) : io unit :=
  fun w => (Return tt, snd (m w)).

Declare Scope io_scope.
Delimit Scope io_scope with io.
Notation "x <- m ;; k" := (bind m (fun x => k))
  (at level 61, m at next level, right associativity) : io_scope.
Notation "m ;; k" := (bind m (fun _ => k))
  (at level 61, right associativity) : io_scope.
Local Open Scope io_scope.

Definition emit (ev : event) : io unit :=
  fun w => (Return tt,
            {| chat := chat w; files := files w;
               steps := S (steps w); trace := trace w ++ [ev] |}).

Definition set_chat (c : list chat_message) : io unit :=
  fun w => (Return tt,
            {| chat := c; files := files w;
               steps := steps w; trace := trace w |}).

Definition set_files (f : list (jsstring * N)) : io unit :=
  fun w => (Return tt,
            {| chat := chat w; files := f;
               steps := steps w; trace := trace w |}).

Fixpoint set_nth (n : nat) (m : chat_message) (c : list chat_message)
  : list chat_message :=
  match c, n with
  | [], _ => []
  | _ :: c', O => m :: c'
  | x :: c', S n' => x :: set_nth n' m c'
  end.

Definition lookup (path : jsstring) (f : list (jsstring * N)) : option N :=
  match find (fun p => str_eqb (fst p) path) f with
  | Some p => Some (snd p)
  | None => None
  end.

Definition remove (path : jsstring) (f : list (jsstring * N))
  : list (jsstring * N) :=
  filter (fun p => negb (str_eqb (fst p) path)) f.

Definition put (path : jsstring) (size : N) (f : list (jsstring * N))
  : list (jsstring * N) :=
  (path, size) :: remove path f.

Definition ENOENT : error := Error (lit "ENOENT: no such file or directory").

(** [statusMsg.message_id]; reading a property of [undefined] throws. *)
Definition message_id (statusMsg : option nat) : io nat :=
  match statusMsg with
  | Some id => ret id
  | None =>
      throw (Error (lit
        "Cannot read properties of undefined (reading 'message_id')"))
  end.

Section Collaborators.

Variable e : env.

(** One request to the transport: recorded, then accepted or refused. *)
Definition telegram (ev : event) : io unit :=
  fun w => match transport e (steps w) ev with
           | None => emit ev w
           | Some err => (Throw err, snd (emit ev w))
           end.

(** [await ctx.reply(text)]: the new message's id. *)
Definition reply (text : jsstring) : io nat :=
  telegram (SendMessage text) ;;
  fun w => (set_chat (chat w ++ [Text text]) ;; ret (List.length (chat w))) w.

(** [await ctx.telegram.editMessageText(ctx.chat.id, id, undefined, text)] *)
Definition editMessageText (id : nat) (text : jsstring) : io unit :=
  telegram (EditMessageText id text) ;;
  fun w => match nth_error (chat w) id with
           | Some (Text _) => set_chat (set_nth id (Text text) (chat w)) w
           | _ => throw (Error (lit
                    "Bad Request: message to edit not found")) w
           end.

(** [await ctx.deleteMessage(id)] *)
Definition deleteMessage (id : nat) : io unit :=
  telegram (DeleteMessage id) ;;
  fun w => match nth_error (chat w) id with
           | Some (Text _) | Some (Video _) =>
               set_chat (set_nth id Deleted (chat w)) w
           | _ => throw (Error (lit
                    "Bad Request: message to delete not found")) w
           end.

(** [await ctx.telegram.sendVideo(ctx.chat.id, src, { caption, ... })] *)
Definition sendVideo (src : source) (caption : jsstring) : io unit :=
  telegram (SendVideo src caption) ;;
  fun w => match src with
           | FromStream _ => set_chat (chat w ++ [Video caption]) w
           | FromFile path =>
               match lookup path (files w) with
               | Some _ => set_chat (chat w ++ [Video caption]) w
               | None => throw ENOENT w
               end
           end.

(** [await ytdl.getInfo(url)], then [info.videoDetails] *)
Definition videoDetails_of (url : jsstring) : io videoDetails :=
  fun w => match getInfo e (steps w) url with
           | Return v => (Return v, snd (emit (GetInfo url) w))
           | Throw err => (Throw err, snd (emit (GetInfo url) w))
           end.

(** [ytdl(url, { filter, quality })]: the stream is returned at once;
    its errors show when it is consumed. *)
Definition ytdl (url : jsstring) (mp4 : bool) (quality : list jsstring)
  : io jsstring :=
  emit (Ytdl url mp4 quality) ;; ret url.

Definition createWriteStream (path : jsstring) : io unit :=
  emit (CreateWriteStream path).

(** [stream.pipe(write)] and the awaited promise that resolves on
    ['finish'] and rejects on an ['error'] of either end. *)
Definition pipe_and_wait (path : jsstring) : io unit :=
  fun w => match transfer e (steps w) with
           | Finish size =>
               (emit (Pipe path) ;; set_files (put path size (files w))) w
           | Fail err partial =>
               (emit (Pipe path) ;;
                match partial with
                | Some size => set_files (put path size (files w))
                | None => ret tt
                end ;;
                throw err) w
           end.

(** [fs.statSync(path).size] *)
Definition statSync_size (path : jsstring) : io N :=
  emit (StatSync path) ;;
  fun w => match lookup path (files w) with
           | Some size => ret size w
           | None => throw ENOENT w
           end.

Definition existsSync (path : jsstring) : io bool :=
  emit (ExistsSync path) ;;
  fun w => match lookup path (files w) with
           | Some _ => ret true w
           | None => ret false w
           end.

Definition unlinkSync (path : jsstring) : io unit :=
  emit (UnlinkSync path) ;;
  fun w => match lookup path (files w) with
           | Some _ => set_files (remove path (files w)) w
           | None => throw ENOENT w
           end.

Definition console (label : jsstring) (err : error) : io unit :=
  emit (Console label err).

Definition now : io Z := fun w => (Return (Date_now e (steps w)), w).

(** [path.join(tempDir, filename)]; [filename] holds no separator. *)
Definition path_join (filename : jsstring) : jsstring :=
  tempDir e ++ lit "/" ++ filename.

End Collaborators.

End Host.

Import Host.
Local Open Scope io_scope.

(** ** Text shared by the two revisions *)

Module Templates.

(** The pictographs of the source's literals, in UTF-16. *)
Definition movie_camera : jsstring := [55356; 57253]%N.
Definition cross_mark : jsstring := [10060]%N.
Definition hourglass : jsstring := [9203]%N.
Definition down_arrow : jsstring := [11015; 65039]%N.
Definition stopwatch : jsstring := [9201; 65039]%N.
Definition sparkles : jsstring := [10024]%N.
Definition package : jsstring := [55357; 56550]%N.
Definition check_mark : jsstring := [9989]%N.
Definition inbox_tray : jsstring := [55357; 56549]%N.
Definition satellite : jsstring := [55357; 56545]%N.

(** The fragment
    [${Math.floor(duration / 60)}:${String(duration % 60).padStart(2, '0')}]
    of the captions (index.js:81 and 125; part_000:58, 106 and 176). *)
Definition duration_text (duration : number) : jsstring :=
  ToString (floor_div duration 60) ++ lit ":"
  ++ padStart 2 (lit "0") (ToString (rem duration 60)).

(** [`${Date.now()}-${title.replace(/[^a-z0-9]/gi, '_')}.mp4`] *)
Definition filename_of (stamp : Z) (title : jsstring) : jsstring :=
  decimal stamp ++ lit "-" ++ replace_non_alnum title ++ lit ".mp4".

(** [fs.statSync(filepath).size / (1024 * 1024)] *)
Definition sizeMB_of (size : N) : Q :=
  (inject_Z (Z.of_N size) / inject_Z (1024 * 1024))%Q.

(** [sizeMB > 48] *)
Definition over_48 (sizeMB : Q) : bool := negb (Qle_bool sizeMB 48).

End Templates.

Import Templates.

(** ** Revision 1: src/index.js *)

Module V1.

Section Program.

Variable e : env.

(** The caption of both [sendVideo] calls (index.js:81 and 125). *)
Definition caption (title : jsstring) (duration : number) : jsstring :=
  movie_camera ++ lit " " ++ title ++ nl
  ++ stopwatch ++ lit " " ++ duration_text duration.

(** The status text of index.js:117. *)
Definition too_large_text : jsstring :=
  package ++ lit " Video too large (max 48MB)".

(** index.js:96-133 *)
Definition downloadVideo (url title : jsstring) (duration : number)
    (statusMsg : option nat) : io unit :=
  emit (Enter Download url title duration statusMsg) ;;
  stamp <- now e ;;
  let filename := filename_of stamp title in
  let filepath := path_join e filename in
  _ <- ytdl url true [lit "highest"] ;;
  createWriteStream filepath ;;
  pipe_and_wait e filepath ;;
  size <- statSync_size filepath ;;
  let sizeMB := sizeMB_of size in
  if over_48 sizeMB then
    unlinkSync filepath ;;
    id <- message_id statusMsg ;;
    editMessageText e id too_large_text
  else
    sendVideo e (FromFile filepath) (caption title duration) ;;
    unlinkSync filepath ;;
    id <- message_id statusMsg ;;
    deleteMessage e id ;;
    detached (reply e (check_mark ++ lit " Downloaded & sent successfully!")).

(** The [try] block of [streamVideo] (index.js:74-88): the one streaming
    attempt. *)
Definition stream_attempt (url title : jsstring) (duration : number)
    (statusMsg : option nat) : io unit :=
  stream <- ytdl url false [lit "18"] ;;
  sendVideo e (FromStream stream) (caption title duration) ;;
  id <- message_id statusMsg ;;
  deleteMessage e id ;;
  detached (reply e (sparkles ++ lit " Streamed successfully!")).

(** index.js:73-93 *)
Definition streamVideo (url title : jsstring) (duration : number)
    (statusMsg : option nat) : io unit :=
  emit (Enter Stream url title duration statusMsg) ;;
  try_catch
    (stream_attempt url title duration statusMsg)
    (fun err =>
       console (lit "Stream failed, falling back to download...") err ;;
       downloadVideo url title duration statusMsg).

(** The [catch] block of the handler (index.js:61-69). *)
Definition on_text_catch (statusMsg : option nat) (err : error) : io unit :=
  console (lit "") err ;;
  id <- message_id statusMsg ;;
  editMessageText e id (cross_mark ++ lit " Failed to process video").

(** index.js:31-70, the handler of [bot.on('text', ...)] *)
Definition on_text (text : jsstring) : io unit :=
  let url := trim text in
  if negb (validateURL e url) then
    reply e (cross_mark ++ lit " Invalid YouTube link") ;; ret tt
  else
    id0 <- reply e (hourglass ++ lit " Fetching video info...") ;;
    let statusMsg := Some id0 in
    try_catch
      (v <- videoDetails_of e url ;;
       let title := slice0 50 (Host.title v) in
       let duration := Number e (lengthSeconds v) in
       id <- message_id statusMsg ;;
       editMessageText e id
         (movie_camera ++ lit " " ++ title ++ nl
          ++ down_arrow ++ lit " Downloading...") ;;
       if le duration (Int 120) then
         streamVideo url title duration statusMsg
       else
         downloadVideo url title duration statusMsg)
      (on_text_catch statusMsg).

End Program.

End V1.

(** ** Revision 2: src/unnamed/part_000 *)

Module V2.

Section Program.

Variable e : env.

(** The status text of part_000:58. *)
Definition preparing_text (title : jsstring) (duration : number) : jsstring :=
  movie_camera ++ lit " " ++ title ++ nl
  ++ down_arrow ++ lit " Preparing video... ("
  ++ duration_text duration ++ lit ")".

(** The caption of part_000:106. *)
Definition stream_caption (title : jsstring) (duration : number) : jsstring :=
  movie_camera ++ lit " " ++ title ++ nl
  ++ stopwatch ++ lit " " ++ duration_text duration ++ nl
  ++ sparkles ++ lit " Streamed instantly!".

(** The caption of part_000:176. *)
Definition download_caption (title : jsstring) (duration : number)
    (sizeMB : Q) : jsstring :=
  movie_camera ++ lit " " ++ title ++ nl
  ++ stopwatch ++ lit " " ++ duration_text duration ++ nl
  ++ inbox_tray ++ lit " " ++ toFixed1 sizeMB ++ lit "MB".

(** The status text of part_000:167. *)
Definition too_large_text (sizeMB : Q) : jsstring :=
  package ++ lit " Video too large (" ++ toFixed1 sizeMB
  ++ lit "MB)" ++ nl ++ lit "Max: 48MB".

(** part_000:123-197 *)
Definition downloadVideo (url title : jsstring) (duration : number)
    (statusMsg : option nat) : io unit :=
  emit (Enter Download url title duration statusMsg) ;;
  stamp <- now e ;;
  let filename := filename_of stamp title in
  let filepath := path_join e filename in
  try_catch
    (id <- message_id statusMsg ;;
     editMessageText e id
       (movie_camera ++ lit " " ++ title ++ nl
        ++ down_arrow ++ lit " Downloading...") ;;
     _ <- ytdl url true
            [lit "highestvideo[height<=720]+bestaudio[ext=m4a]/best[ext=mp4]"] ;;
     createWriteStream filepath ;;
     pipe_and_wait e filepath ;;
     size <- statSync_size filepath ;;
     let sizeMB := sizeMB_of size in
     if over_48 sizeMB then
       unlinkSync filepath ;;
       id <- message_id statusMsg ;;
       editMessageText e id (too_large_text sizeMB)
     else
       sendVideo e (FromFile filepath)
         (download_caption title duration sizeMB) ;;
       unlinkSync filepath ;;
       id <- message_id statusMsg ;;
       deleteMessage e id ;;
       detached (reply e (check_mark ++ lit " Downloaded & sent successfully!")))
    (fun err =>
       console (lit "Download error:") err ;;
       present <- existsSync filepath ;;
       (if present : bool then unlinkSync filepath else ret tt) ;;
       id <- message_id statusMsg ;;
       editMessageText e id
         (cross_mark ++ lit " Download failed:" ++ nl
          ++ lit "`" ++ message err ++ lit "`")).

(** The [try] block of [streamVideo] (part_000:83-113): the one
    streaming attempt. *)
Definition stream_attempt (url title : jsstring) (duration : number)
    (statusMsg : option nat) : io unit :=
  id <- message_id statusMsg ;;
  editMessageText e id
    (movie_camera ++ lit " " ++ title ++ nl
     ++ satellite ++ lit " Streaming...") ;;
  stream <- ytdl url false [lit "18"; lit "22"; lit "137+140"] ;;
  sendVideo e (FromStream stream) (stream_caption title duration) ;;
  id <- message_id statusMsg ;;
  deleteMessage e id ;;
  detached (reply e (sparkles ++ lit " Video streamed successfully!")).

(** part_000:82-120 *)
Definition streamVideo (url title : jsstring) (duration : number)
    (statusMsg : option nat) : io unit :=
  emit (Enter Stream url title duration statusMsg) ;;
  try_catch
    (stream_attempt url title duration statusMsg)
    (fun err =>
       console (lit "Stream failed, trying download...") err ;;
       id <- message_id statusMsg ;;
       deleteMessage e id ;;
       downloadVideo url title duration None).

(** The [catch] block of the handler (part_000:69-78). *)
Definition on_text_catch (statusMsg : option nat) (err : error) : io unit :=
  console (lit "Video processing error:") err ;;
  id <- message_id statusMsg ;;
  editMessageText e id
    (cross_mark ++ lit " Failed to process video:" ++ nl
     ++ lit "`" ++ message err ++ lit "`" ++ nl ++ nl
     ++ lit "Try another link!").

(** part_000:31-79, the handler of [bot.on('text', ...)] *)
Definition on_text (text : jsstring) : io unit :=
  let url := trim text in
  if negb (validateURL e url) then
    reply e (cross_mark ++ lit " Invalid YouTube link!" ++ nl ++ nl
             ++ lit "Send a valid YouTube URL.") ;; ret tt
  else
    id0 <- reply e (hourglass ++ lit " Fetching video info...") ;;
    let statusMsg := Some id0 in
    try_catch
      (v <- videoDetails_of e url ;;
       let title := slice0 50 (Host.title v) in
       let duration := Number e (lengthSeconds v) in
       id <- message_id statusMsg ;;
       editMessageText e id (preparing_text title duration) ;;
       if le duration (Int 120) then
         streamVideo url title duration statusMsg
       else
         downloadVideo url title duration statusMsg)
      (on_text_catch statusMsg).

End Program.

End V2.

(** ** What is observed of a run *)

Module Observe.

(** The delivery functions entered, in order. *)
Definition callees (tr : list event) : list callee :=
  flat_map (fun ev => match ev with Enter f _ _ _ _ => [f] | _ => [] end) tr.

(** The strategy the selector chose: the first delivery function entered. *)
Definition selected (tr : list event) : option callee := hd_error (callees tr).

(** An upload of the temp file was attempted. *)
Definition uploads (tr : list event) : bool :=
  existsb (fun ev => match ev with
                     | SendVideo (FromFile _) _ => true
                     | _ => false
                     end) tr.

(** Calls of [fs.unlinkSync]. *)
Definition unlinks (tr : list event) : nat :=
  List.length (filter (fun ev => match ev with
                                 | UnlinkSync _ => true
                                 | _ => false
                                 end) tr).

(** A media stream was opened for a download (the mp4 filter). *)
Definition opens_download (tr : list event) : bool :=
  existsb (fun ev => match ev with
                     | Ytdl _ true _ => true
                     | _ => false
                     end) tr.

(** A metadata request went out. *)
Definition asks_info (tr : list event) : bool :=
  existsb (fun ev => match ev with GetInfo _ => true | _ => false end) tr.

(** A video reached the chat. *)
Definition delivered (c : list chat_message) : bool :=
  existsb (fun m => match m with Video _ => true | _ => false end) c.

(** The transport accepts the call [ev] whenever it is made. *)
Definition accepts (e : env) (ev : event) : Prop :=
  forall k, transport e k ev = None.

(** The resolver answers [v] for [url] whenever it is asked. *)
Definition resolves (e : env) (url : jsstring) (v : videoDetails) : Prop :=
  forall k, getInfo e k url = Return v.

(** Every transfer finishes with [size] bytes written. *)
Definition completes (e : env) (size : N) : Prop :=
  forall k, transfer e k = Finish size.



(** 48 MB in bytes. *)
Definition ceiling : N := 48 * 1024 * 1024.

(** Properties of a trace that hold of the empty trace and are kept by
    concatenation. *)
Class Closed (P : list event -> Prop) : Prop := {
  closed_nil : P [];
  closed_app : forall t1 t2, P t1 -> P t2 -> P (t1 ++ t2)
}.

(** [m] only appends to the trace, and what it appends satisfies [P]. *)
Definition emits {A} (P : list event -> Prop) (m : io A) : Prop :=
  forall w, exists tl, trace (snd (m w)) = trace w ++ tl /\ P tl.

(** No delivery function is entered. *)
Definition quiet (tl : list event) : Prop := callees tl = [].

Definition any (tl : list event) : Prop := True.

Definition no_upload (tl : list event) : Prop := uploads tl = false.

(** What [streamVideo] may enter after itself, what it enters in all, and
    what a whole request enters. *)
Definition at_most_download (l : list callee) : Prop :=
  l = [] \/ l = [Download].

Definition stream_then_download (l : list callee) : Prop :=
  l = [Stream] \/ l = [Stream; Download].

Definition one_of_each (l : list callee) : Prop :=
  l = [] \/ l = [Stream] \/ l = [Download] \/ l = [Stream; Download].


(** An entry into a delivery function carries this URL, title and
    duration. *)
Definition same_request (url title : jsstring) (duration : number)
    (ev : event) : Prop :=
  match ev with
  | Enter _ u t d _ => u = url /\ t = title /\ d = duration
  | _ => True
  end.

(** ... and this status message. *)
Definition same_call (url title : jsstring) (duration : number)
    (statusMsg : option nat) (ev : event) : Prop :=
  match ev with
  | Enter _ u t d s => u = url /\ t = title /\ d = duration /\ s = statusMsg
  | _ => True
  end.

(** The world in which the selector runs: the status message shows
    [status], three calls have been made. *)
Definition at_selector (w : world) (url status : jsstring) : world :=
  {| chat := chat w ++ [Text status]; files := files w;
     steps := S (S (S (steps w)));
     trace := trace w
              ++ [SendMessage (hourglass ++ lit " Fetching video info...");
                  GetInfo url;
                  EditMessageText (List.length (chat w)) status] |}.

End Observe.

Import Observe.

(** ** Collaborators of the worked examples *)

Module Examples.

Fixpoint digits_value (acc : Z) (s : jsstring) : option Z :=
  match s with
  | [] => Some acc
  | c :: s' =>
      if ((48 <=? c) && (c <=? 57))%N
      then digits_value (10 * acc + Z.of_N (c - 48)) s'
      else None
  end.

(** The built-in [Number] on the texts of the examples: the empty text is
    0, a decimal numeral is its value, a text with a character that no
    numeric literal can hold is [NaN]. *)
Definition Number_digits (s : jsstring) : number :=
  match digits_value 0 s with
  | Some z => Int z
  | None => NaN
  end.

Definition zoo_url : jsstring := lit "https://youtu.be/jNQXAC9IVRw".

Definition zoo (len : String.string) : videoDetails :=
  {| title := lit "Me at the zoo"; lengthSeconds := lit len |}.

(** A title of 68 code units. *)
Definition remaster : videoDetails :=
  {| title :=
       lit "Rick Astley - Never Gonna Give You Up (Official Video) (4K Remaster)";
     lengthSeconds := lit "213" |}.

Definition no_fault : nat -> event -> option error := fun _ _ => None.

(** The transport refuses every video sent from a live stream. *)
Definition stream_refused : nat -> event -> option error :=
  fun _ ev => match ev with
              | SendVideo (FromStream _) _ => Some (Error (lit "socket hang up"))
              | _ => None
              end.

(** The transport refuses every video sent from a file. *)
Definition upload_refused : nat -> event -> option error :=
  fun _ ev => match ev with
              | SendVideo (FromFile _) _ =>
                  Some (Error (lit "413: Request Entity Too Large"))
              | _ => None
              end.

(** The transport refuses every live stream and every deletion. *)
Definition stream_and_delete_refused : nat -> event -> option error :=
  fun _ ev => match ev with
              | SendVideo (FromStream _) _ => Some (Error (lit "socket hang up"))
              | DeleteMessage _ => Some (Error (lit "ETIMEDOUT"))
              | _ => None
              end.

Definition studio (v : videoDetails) (size : N)
    (faults : nat -> event -> option error) : env :=
  {| validateURL := fun u => str_eqb u zoo_url;
     Number := Number_digits;
     getInfo := fun _ _ => Return v;
     transport := faults;
     transfer := fun _ => Finish size;
     Date_now := fun _ => 1700000000000%Z;
     tempDir := lit "/app/temp" |}.

(** As [studio], but the source stream breaks after [partial] bytes. *)
Definition broken_studio (v : videoDetails) (partial : N) : env :=
  {| validateURL := fun u => str_eqb u zoo_url;
     Number := Number_digits;
     getInfo := fun _ _ => Return v;
     transport := no_fault;
     transfer := fun _ => Fail (Error (lit "aborted")) (Some partial);
     Date_now := fun _ => 1700000000000%Z;
     tempDir := lit "/app/temp" |}.

Definition idle : world :=
  {| chat := []; files := []; steps := 0; trace := [] |}.

(** A chat in which message 0 is the status message of a request. *)
Definition waiting : world :=
  {| chat := [Text (hourglass ++ lit " Fetching video info...")];
     files := []; steps := 0; trace := [] |}.

Definition MB : N := 1024 * 1024.

Definition zoo_file : jsstring :=
  lit "/app/temp/1700000000000-Me_at_the_zoo.mp4".

End Examples.

(** ** More observations *)

Module Further.

(** A code unit that a file name can hold without leaving its directory:
    an ASCII letter or digit, an underscore, a hyphen or a dot. *)
Definition safe_unit (c : N) : bool :=
  is_alnum c || (c =? 95)%N || (c =? 45)%N || (c =? 46)%N.

(** A call to the file system, or an upload from a file, addresses the
    path [tempDir/name] for a [name] made of safe code units. *)
Definition in_tempDir (e : env) (ev : event) : Prop :=
  match ev with
  | CreateWriteStream p | Pipe p | StatSync p | ExistsSync p | UnlinkSync p
  | SendVideo (FromFile p) _ =>
      exists name, p = path_join e name /\ forallb safe_unit name = true
  | _ => True
  end.

(** The call reads or changes the scratch directory. *)
Definition touches_disk (ev : event) : bool :=
  match ev with
  | CreateWriteStream _ | Pipe _ | StatSync _ | ExistsSync _ | UnlinkSync _
  | SendVideo (FromFile _) _ | Ytdl _ true _ => true
  | _ => false
  end.

(** No call of the trace reads or changes the scratch directory. *)
Definition off_disk (tl : list event) : Prop :=
  existsb touches_disk tl = false.

(** The title handed to a delivery function has at most 50 code units. *)
Definition short_title (ev : event) : Prop :=
  match ev with
  | Enter _ _ t _ _ => (List.length t <= 50)%nat
  | _ => True
  end.

(** The status text of part_000:193 for the error [err]. *)
Definition download_failed_text (err : error) : jsstring :=
  cross_mark ++ lit " Download failed:" ++ nl
  ++ lit "`" ++ message err ++ lit "`".

(** The status text of part_000:75 for the error [err]. *)
Definition processing_failed_text (err : error) : jsstring :=
  cross_mark ++ lit " Failed to process video:" ++ nl
  ++ lit "`" ++ message err ++ lit "`" ++ nl ++ nl
  ++ lit "Try another link!".

(** The transport accepts every call. *)
Definition reliable (e : env) : Prop := forall ev, accepts e ev.

(** A computation that leaves the scratch directory as it is. *)
Definition keeps_files {A} (m : io A) : Prop :=
  forall w, files (snd (m w)) = files w.

(** The transport refuses every text message. *)
Definition messages_refused : nat -> event -> option error :=
  fun _ ev => match ev with
              | SendMessage _ => Some (Error (lit "ETIMEDOUT"))
              | _ => None
              end.

(** As [Examples.studio], but the resolver fails. *)
Definition unavailable : env :=
  {| validateURL := fun u => str_eqb u Examples.zoo_url;
     Number := Examples.Number_digits;
     getInfo := fun _ _ => Throw (Error (lit "Video unavailable"));
     transport := Examples.no_fault;
     transfer := fun _ => Finish 0;
     Date_now := fun _ => 1700000000000%Z;
     tempDir := lit "/app/temp" |}.

End Further.

Import Further.

(** ** The shape of traces *)

Section Emits.

Context (P : list event -> Prop) `{HP : Closed P}.

Lemma emits_ret {A} (a : A) : emits P (ret a).
Proof.
  intros w. exists []. rewrite app_nil_r.
  split; [reflexivity | apply closed_nil].
Qed.

Lemma emits_throw {A} (err : error) : emits P (@throw A err).
Proof.
  intros w. exists []. rewrite app_nil_r.
  split; [reflexivity | apply closed_nil].
Qed.

Lemma emits_emit (ev : event) : P [ev] -> emits P (emit ev).
Proof. intros H w. now exists [ev]. Qed.

Lemma emits_bind {A B} (m : io A) (k : A -> io B) :
  emits P m -> (forall a, emits P (k a)) -> emits P (bind m k).
Proof.
  intros Hm Hk w. unfold bind.
  destruct (Hm w) as [t1 [E1 P1]].
  destruct (m w) as [[a | err] w1]; cbn in *.
  - destruct (Hk a w1) as [t2 [E2 P2]].
    exists (t1 ++ t2). rewrite E2, E1, app_assoc.
    split; [reflexivity | now apply closed_app].
  - exists t1. auto.
Qed.

Lemma emits_try_catch {A} (m : io A) (h : error -> io A) :
  emits P m -> (forall err, emits P (h err)) -> emits P (try_catch m h).
Proof.
  intros Hm Hh w. unfold try_catch.
  destruct (Hm w) as [t1 [E1 P1]].
  destruct (m w) as [[a | err] w1]; cbn in *.
  - exists t1. auto.
  - destruct (Hh err w1) as [t2 [E2 P2]].
    exists (t1 ++ t2). rewrite E2, E1, app_assoc.
    split; [reflexivity | now apply closed_app].
Qed.

Lemma emits_detached {A} (m : io A) : emits P m -> emits P (detached m).
Proof. intros Hm w. exact (Hm w). Qed.

Lemma emits_message_id s : emits P (message_id s).
Proof. destruct s; [apply emits_ret | apply emits_throw]. Qed.

Section Calls.

Variable e : env.

Ltac prim :=
  let w := fresh "w" in
  intros ? w;
  unfold reply, editMessageText, deleteMessage, sendVideo, videoDetails_of,
         ytdl, createWriteStream, pipe_and_wait, statSync_size, existsSync,
         unlinkSync, console, telegram, bind, ret, throw, emit, set_chat,
         set_files;
  cbn;
  repeat match goal with
         | |- context [match ?x with _ => _ end] =>
             lazymatch x with
             | context [match _ with _ => _ end] => fail
             | _ => destruct x; cbn
             end
         end;
  (eexists; split; [reflexivity | eassumption]).

Lemma emits_reply t : P [SendMessage t] -> emits P (reply e t).
Proof. prim. Qed.

Lemma emits_editMessageText id t :
  P [EditMessageText id t] -> emits P (editMessageText e id t).
Proof. prim. Qed.

Lemma emits_deleteMessage id :
  P [DeleteMessage id] -> emits P (deleteMessage e id).
Proof. prim. Qed.

Lemma emits_sendVideo src c : P [SendVideo src c] -> emits P (sendVideo e src c).
Proof. prim. Qed.

Lemma emits_videoDetails_of url :
  P [GetInfo url] -> emits P (videoDetails_of e url).
Proof. prim. Qed.

Lemma emits_ytdl url mp4 q : P [Ytdl url mp4 q] -> emits P (ytdl url mp4 q).
Proof. prim. Qed.

Lemma emits_createWriteStream path :
  P [CreateWriteStream path] -> emits P (createWriteStream path).
Proof. prim. Qed.

Lemma emits_pipe_and_wait path : P [Pipe path] -> emits P (pipe_and_wait e path).
Proof. prim. Qed.

Lemma emits_statSync_size path : P [StatSync path] -> emits P (statSync_size path).
Proof. prim. Qed.

Lemma emits_existsSync path : P [ExistsSync path] -> emits P (existsSync path).
Proof. prim. Qed.

Lemma emits_unlinkSync path : P [UnlinkSync path] -> emits P (unlinkSync path).
Proof. prim. Qed.

Lemma emits_console l err : P [Console l err] -> emits P (console l err).
Proof. prim. Qed.

Lemma emits_now : emits P (now e).
Proof.
  intros w. exists []. rewrite app_nil_r.
  split; [reflexivity | apply closed_nil].
Qed.

End Calls.

End Emits.

Lemma callees_app t1 t2 : callees (t1 ++ t2) = callees t1 ++ callees t2.
Proof. apply flat_map_app. Qed.

#[local] Instance quiet_closed : Closed quiet.
Proof.
  split; [reflexivity |].
  unfold quiet. intros t1 t2 H1 H2. now rewrite callees_app, H1, H2.
Qed.

#[local] Instance any_closed : Closed any.
Proof. split; intros; exact I. Qed.

(** Decomposes a computation down to the calls it makes. *)
Ltac shape :=
  repeat first
    [ progress intros
    | progress cbv beta zeta
    | exact _
    | reflexivity
    | exact I
    | solve [repeat constructor]
    | match goal with
      | |- emits _ (bind _ _) => apply emits_bind
      | |- emits _ (try_catch _ _) => apply emits_try_catch
      | |- emits _ (detached _) => apply emits_detached
      | |- emits _ (ret _) => apply emits_ret
      | |- emits _ (throw _) => apply emits_throw
      | |- emits _ (message_id _) => apply emits_message_id
      | |- emits _ (now _) => apply emits_now
      | |- emits _ (emit _) => apply emits_emit
      | |- emits _ (reply _ _) => apply emits_reply
      | |- emits _ (editMessageText _ _ _) => apply emits_editMessageText
      | |- emits _ (deleteMessage _ _) => apply emits_deleteMessage
      | |- emits _ (sendVideo _ _ _) => apply emits_sendVideo
      | |- emits _ (videoDetails_of _ _) => apply emits_videoDetails_of
      | |- emits _ (ytdl _ _ _) => apply emits_ytdl
      | |- emits _ (createWriteStream _) => apply emits_createWriteStream
      | |- emits _ (pipe_and_wait _ _) => apply emits_pipe_and_wait
      | |- emits _ (statSync_size _) => apply emits_statSync_size
      | |- emits _ (existsSync _) => apply emits_existsSync
      | |- emits _ (unlinkSync _) => apply emits_unlinkSync
      | |- emits _ (console _ _) => apply emits_console
      | |- emits _ (match ?x with _ => _ end) => destruct x
      end ].

Section Shapes.

Variable e : env.

Lemma enter_first (P : list event -> Prop) `{Closed P} {A}
    (ev : event) (body : io A) (h : error -> io A) :
  emits P body -> (forall err, emits P (h err)) ->
  forall w, exists tl,
    trace (snd (try_catch (emit ev ;; body) h w)) = trace w ++ ev :: tl /\ P tl.
Proof.
  intros Hb Hh w.
  destruct (emits_try_catch P body h Hb Hh (snd (emit ev w))) as [tl [E Ptl]].
  exists tl. split; [| exact Ptl].
  unfold try_catch, bind in *. cbn in *.
  rewrite E, <- app_assoc. reflexivity.
Qed.

End Shapes.

(** ** Running the handler up to the selector *)

Lemma nth_error_snoc {A} (c : list A) (m : A) :
  nth_error (c ++ [m]) (List.length c) = Some m.
Proof. rewrite nth_error_app2, Nat.sub_diag by lia. reflexivity. Qed.

Lemma set_nth_snoc (c : list chat_message) (m m' : chat_message) :
  set_nth (List.length c) m' (c ++ [m]) = c ++ [m'].
Proof. induction c as [| x c IH]; cbn; [reflexivity | now rewrite IH]. Qed.

Lemma bind_Return {A B} (m : io A) (k : A -> io B) w a w' :
  m w = (Return a, w') -> bind m k w = k a w'.
Proof. intros E. unfold bind. now rewrite E. Qed.

Section Runs.

Variable e : env.

Lemma run_reply t w :
  transport e (steps w) (SendMessage t) = None ->
  reply e t w
  = (Return (List.length (chat w)),
     {| chat := chat w ++ [Text t]; files := files w;
        steps := S (steps w); trace := trace w ++ [SendMessage t] |}).
Proof. intros E. unfold reply, telegram, bind. now rewrite E. Qed.

Lemma run_videoDetails_of url v w :
  getInfo e (steps w) url = Return v ->
  videoDetails_of e url w
  = (Return v,
     {| chat := chat w; files := files w;
        steps := S (steps w); trace := trace w ++ [GetInfo url] |}).
Proof. intros E. unfold videoDetails_of. now rewrite E. Qed.

Lemma run_editMessageText id t old w :
  transport e (steps w) (EditMessageText id t) = None ->
  nth_error (chat w) id = Some (Text old) ->
  editMessageText e id t w
  = (Return tt,
     {| chat := set_nth id (Text t) (chat w); files := files w;
        steps := S (steps w);
        trace := trace w ++ [EditMessageText id t] |}).
Proof.
  intros E L. unfold editMessageText, telegram, bind. rewrite E. cbn.
  now rewrite L.
Qed.

Lemma V1_on_text_selector text v w :
  validateURL e (trim text) = true ->
  (forall t, accepts e (SendMessage t)) ->
  resolves e (trim text) v ->
  (forall t, accepts e (EditMessageText (List.length (chat w)) t)) ->
  let url := trim text in
  let title := slice0 50 (Host.title v) in
  let duration := Number e (lengthSeconds v) in
  let statusMsg := Some (List.length (chat w)) in
  V1.on_text e text w
  = try_catch
      (if le duration (Int 120)
       then V1.streamVideo e url title duration statusMsg
       else V1.downloadVideo e url title duration statusMsg)
      (V1.on_text_catch e statusMsg)
      (at_selector w url
         (movie_camera ++ lit " " ++ title ++ nl
          ++ down_arrow ++ lit " Downloading...")).
Proof.
  intros Hv Hs Hr He url title duration statusMsg.
  subst url title duration statusMsg.
  unfold V1.on_text. cbv zeta. rewrite Hv. cbn [negb].
  erewrite bind_Return by (apply run_reply, Hs).
  unfold try_catch at 1.
  erewrite bind_Return by (apply run_videoDetails_of, Hr).
  cbn [message_id]. 
  erewrite (bind_Return (ret _)) by reflexivity.
  erewrite bind_Return.
  2:{ eapply run_editMessageText; [apply He | apply nth_error_snoc]. }
  cbn [chat files steps trace]. rewrite set_nth_snoc, <- !app_assoc.
  reflexivity.
Qed.

Lemma V2_on_text_selector text v w :
  validateURL e (trim text) = true ->
  (forall t, accepts e (SendMessage t)) ->
  resolves e (trim text) v ->
  (forall t, accepts e (EditMessageText (List.length (chat w)) t)) ->
  let url := trim text in
  let title := slice0 50 (Host.title v) in
  let duration := Number e (lengthSeconds v) in
  let statusMsg := Some (List.length (chat w)) in
  V2.on_text e text w
  = try_catch
      (if le duration (Int 120)
       then V2.streamVideo e url title duration statusMsg
       else V2.downloadVideo e url title duration statusMsg)
      (V2.on_text_catch e statusMsg)
      (at_selector w url (V2.preparing_text title duration)).
Proof.
  intros Hv Hs Hr He url title duration statusMsg.
  subst url title duration statusMsg.
  unfold V2.on_text. cbv zeta. rewrite Hv. cbn [negb].
  erewrite bind_Return by (apply run_reply, Hs).
  unfold try_catch at 1.
  erewrite bind_Return by (apply run_videoDetails_of, Hr).
  cbn [message_id].
  erewrite (bind_Return (ret _)) by reflexivity.
  erewrite bind_Return.
  2:{ eapply run_editMessageText; [apply He | apply nth_error_snoc]. }
  cbn [chat files steps trace]. rewrite set_nth_snoc, <- !app_assoc.
  reflexivity.
Qed.

End Runs.

(** ** The selector *)

Section Selector.

Variable e : env.

Lemma V1_stream_first url title duration statusMsg w :
  exists tl,
    trace (snd (try_catch (V1.streamVideo e url title duration statusMsg)
                  (V1.on_text_catch e statusMsg) w))
    = trace w ++ Enter Stream url title duration statusMsg :: tl /\ any tl.
Proof.
  unfold V1.streamVideo, V1.stream_attempt, V1.downloadVideo, V1.on_text_catch.
  apply enter_first; shape.
Qed.

Lemma V1_download_only url title duration statusMsg w :
  exists tl,
    trace (snd (try_catch (V1.downloadVideo e url title duration statusMsg)
                  (V1.on_text_catch e statusMsg) w))
    = trace w ++ Enter Download url title duration statusMsg :: tl
    /\ quiet tl.
Proof.
  unfold V1.downloadVideo, V1.on_text_catch.
  apply enter_first; shape.
Qed.

Lemma V2_stream_first url title duration statusMsg w :
  exists tl,
    trace (snd (try_catch (V2.streamVideo e url title duration statusMsg)
                  (V2.on_text_catch e statusMsg) w))
    = trace w ++ Enter Stream url title duration statusMsg :: tl /\ any tl.
Proof.
  unfold V2.streamVideo, V2.stream_attempt, V2.downloadVideo, V2.on_text_catch.
  apply enter_first; shape.
Qed.

Lemma V2_download_only url title duration statusMsg w :
  exists tl,
    trace (snd (try_catch (V2.downloadVideo e url title duration statusMsg)
                  (V2.on_text_catch e statusMsg) w))
    = trace w ++ Enter Download url title duration statusMsg :: tl
    /\ quiet tl.
Proof.
  unfold V2.downloadVideo, V2.on_text_catch.
  apply enter_first; shape.
Qed.

End Selector.

(** ** The title *)






(** ** After the transfer *)

Lemma over_48_spec (s : N) : over_48 (sizeMB_of s) = negb (s <=? ceiling)%N.
Proof.
  unfold over_48, sizeMB_of, ceiling, Qle_bool. cbn.
  f_equal.
  destruct (Z.leb_spec (Z.of_N s * 1 * 1) 50331648),
           (N.leb_spec s 50331648); try reflexivity; lia.
Qed.

Lemma str_eqb_refl (a : jsstring) : str_eqb a a = true.
Proof. unfold str_eqb. destruct (jsstring_dec a a); congruence. Qed.

Lemma lookup_put path s f : lookup path (put path s f) = Some s.
Proof. unfold lookup, put. cbn. now rewrite str_eqb_refl. Qed.

Lemma lookup_remove path f : lookup path (remove path f) = None.
Proof.
  unfold lookup, remove.
  induction f as [| [p s] f IH]; cbn; [reflexivity |].
  destruct (str_eqb p path) eqn:E; cbn; [exact IH |].
  now rewrite E.
Qed.

Lemma uploads_app t1 t2 : uploads (t1 ++ t2) = uploads t1 || uploads t2.
Proof. apply existsb_app. Qed.

#[local] Instance no_upload_closed : Closed no_upload.
Proof.
  split; [reflexivity |].
  unfold no_upload. intros t1 t2 H1 H2. now rewrite uploads_app, H1, H2.
Qed.

Lemma emits_keeps {A} P `{Closed P} (m : io A) w :
  emits P m -> P (trace w) -> P (trace (snd (m w))).
Proof.
  intros Hm Hw. destruct (Hm w) as [tl [Etl Ptl]].
  rewrite Etl. now apply closed_app.
Qed.

Section Download.

Variable e : env.

Lemma run_emit_bind {B} ev (k : unit -> io B) w :
  bind (emit ev) k w
  = k tt {| chat := chat w; files := files w;
            steps := S (steps w); trace := trace w ++ [ev] |}.
Proof. reflexivity. Qed.

Lemma run_ytdl url mp4 q w :
  ytdl url mp4 q w
  = (Return url,
     {| chat := chat w; files := files w;
        steps := S (steps w); trace := trace w ++ [Ytdl url mp4 q] |}).
Proof. reflexivity. Qed.

Lemma run_createWriteStream path w :
  createWriteStream path w
  = (Return tt,
     {| chat := chat w; files := files w;
        steps := S (steps w); trace := trace w ++ [CreateWriteStream path] |}).
Proof. reflexivity. Qed.

Lemma run_now w : now e w = (Return (Date_now e (steps w)), w).
Proof. reflexivity. Qed.

Lemma run_pipe_finish path s w :
  transfer e (steps w) = Finish s ->
  pipe_and_wait e path w
  = (Return tt,
     {| chat := chat w; files := put path s (files w);
        steps := S (steps w); trace := trace w ++ [Pipe path] |}).
Proof. intros E. unfold pipe_and_wait. now rewrite E. Qed.

Lemma run_statSync_size path s w :
  lookup path (files w) = Some s ->
  statSync_size path w
  = (Return s,
     {| chat := chat w; files := files w;
        steps := S (steps w); trace := trace w ++ [StatSync path] |}).
Proof. intros E. unfold statSync_size, bind, emit. cbn. now rewrite E. Qed.

(** [V1.downloadVideo] after a complete write of [s] bytes: the part of
    the function that follows the size measurement runs in a world where
    five calls have been made. *)
Lemma V1_downloadVideo_measured url title duration statusMsg s w :
  completes e s ->
  let filepath := path_join e (filename_of (Date_now e (S (steps w))) title) in
  V1.downloadVideo e url title duration statusMsg w
  = (if over_48 (sizeMB_of s) then
       unlinkSync filepath ;;
       id <- message_id statusMsg ;;
       editMessageText e id V1.too_large_text
     else
       sendVideo e (FromFile filepath) (V1.caption title duration) ;;
       unlinkSync filepath ;;
       id <- message_id statusMsg ;;
       deleteMessage e id ;;
       detached
         (reply e (check_mark ++ lit " Downloaded & sent successfully!")))
      {| chat := chat w; files := put filepath s (files w);
         steps := 5 + steps w;
         trace := trace w
                  ++ [Enter Download url title duration statusMsg;
                      Ytdl url true [lit "highest"];
                      CreateWriteStream filepath;
                      Pipe filepath;
                      StatSync filepath] |}.
Proof.
  intros Hc filepath. subst filepath.
  unfold V1.downloadVideo. rewrite run_emit_bind.
  erewrite bind_Return by apply run_now. cbv zeta. cbn [steps].
  erewrite bind_Return by apply run_ytdl.
  erewrite bind_Return by apply run_createWriteStream.
  erewrite bind_Return by (apply run_pipe_finish, Hc).
  erewrite bind_Return by (apply run_statSync_size, lookup_put).
  cbn [chat files steps trace]. rewrite <- !app_assoc. reflexivity.
Qed.

Lemma try_bind_Return {A B} (m : io A) (k : A -> io B) h w a w' :
  m w = (Return a, w') ->
  try_catch (bind m k) h w = try_catch (k a) h w'.
Proof. intros E. unfold try_catch, bind. now rewrite E. Qed.

(** [V2.downloadVideo] after a complete write of [s] bytes, when the
    status message is there to be edited. *)
Lemma V2_downloadVideo_measured url title duration id old s w :
  completes e s ->
  nth_error (chat w) id = Some (Text old) ->
  (forall t, accepts e (EditMessageText id t)) ->
  let statusMsg := Some id in
  let filepath := path_join e (filename_of (Date_now e (S (steps w))) title) in
  let downloading :=
    movie_camera ++ lit " " ++ title ++ nl
    ++ down_arrow ++ lit " Downloading..." in
  V2.downloadVideo e url title duration statusMsg w
  = try_catch
      (if over_48 (sizeMB_of s) then
         unlinkSync filepath ;;
         id <- message_id statusMsg ;;
         editMessageText e id (V2.too_large_text (sizeMB_of s))
       else
         sendVideo e (FromFile filepath)
           (V2.download_caption title duration (sizeMB_of s)) ;;
         unlinkSync filepath ;;
         id <- message_id statusMsg ;;
         deleteMessage e id ;;
         detached
           (reply e (check_mark ++ lit " Downloaded & sent successfully!")))
      (fun err =>
         console (lit "Download error:") err ;;
         present <- existsSync filepath ;;
         (if present : bool then unlinkSync filepath else ret tt) ;;
         id <- message_id statusMsg ;;
         editMessageText e id
           (cross_mark ++ lit " Download failed:" ++ nl
            ++ lit "`" ++ message err ++ lit "`"))
      {| chat := set_nth id (Text downloading) (chat w);
         files := put filepath s (files w);
         steps := 6 + steps w;
         trace := trace w
                  ++ [Enter Download url title duration statusMsg;
                      EditMessageText id downloading;
                      Ytdl url true
                        [lit "highestvideo[height<=720]+bestaudio[ext=m4a]/best[ext=mp4]"];
                      CreateWriteStream filepath;
                      Pipe filepath;
                      StatSync filepath] |}.
Proof.
  intros Hc Hl He statusMsg filepath downloading.
  subst statusMsg filepath downloading.
  unfold V2.downloadVideo. rewrite run_emit_bind.
  erewrite bind_Return by apply run_now. cbv zeta. cbn [steps message_id].
  erewrite (try_bind_Return (ret _)) by reflexivity.
  erewrite try_bind_Return.
  2:{ eapply run_editMessageText; [apply He | exact Hl]. }
  erewrite try_bind_Return by apply run_ytdl.
  erewrite try_bind_Return by apply run_createWriteStream.
  erewrite try_bind_Return by (apply run_pipe_finish, Hc).
  erewrite try_bind_Return by (apply run_statSync_size, lookup_put).
  cbn [chat files steps trace]. rewrite <- !app_assoc. reflexivity.
Qed.

Lemma first_call (P : list event -> Prop) `{Closed P} {A B}
    (ev : event) (m : io A) (k : A -> io B) (h : error -> io B) :
  (forall w, trace (snd (m w)) = trace w ++ [ev]) ->
  (forall a, emits P (k a)) -> (forall err, emits P (h err)) ->
  forall w, exists tl,
    trace (snd (try_catch (bind m k) h w)) = trace w ++ ev :: tl /\ P tl.
Proof.
  intros Hm Hk Hh w. specialize (Hm w).
  unfold try_catch, bind.
  destruct (m w) as [[a | err] w1]; cbn in Hm.
  - destruct (emits_try_catch P (k a) h (Hk a) Hh w1) as [tl [E Ptl]].
    exists tl. split; [| exact Ptl].
    unfold try_catch in E. rewrite E, Hm, <- app_assoc. reflexivity.
  - destruct (Hh err w1) as [tl [E Ptl]].
    exists tl. split; [| exact Ptl].
    rewrite E, Hm, <- app_assoc. reflexivity.
Qed.

Lemma first_call_bind (P : list event -> Prop) `{Closed P} {A B}
    (ev : event) (m : io A) (k : A -> io B) :
  (forall w, trace (snd (m w)) = trace w ++ [ev]) ->
  (forall a, emits P (k a)) ->
  forall w, exists tl,
    trace (snd (bind m k w)) = trace w ++ ev :: tl /\ P tl.
Proof.
  intros Hm Hk w. specialize (Hm w). unfold bind.
  destruct (m w) as [[a | err] w1]; cbn in Hm.
  - destruct (Hk a w1) as [tl [E Ptl]].
    exists tl. split; [| exact Ptl].
    rewrite E, Hm, <- app_assoc. reflexivity.
  - exists []. split; [exact Hm | apply closed_nil].
Qed.

Lemma trace_sendVideo src c w :
  trace (snd (sendVideo e src c w)) = trace w ++ [SendVideo src c].
Proof.
  unfold sendVideo, telegram, bind.
  destruct (transport e (steps w) (SendVideo src c)); cbn; [reflexivity |].
  destruct src; [reflexivity |].
  destruct (lookup path (files w)); reflexivity.
Qed.

Lemma uploads_after prefix path c tl :
  uploads (prefix ++ SendVideo (FromFile path) c :: tl) = true.
Proof. rewrite uploads_app. cbn. apply orb_true_r. Qed.

End Download.

(** C9.  After a complete write of [s] bytes, with the status message in
    place, [downloadVideo] attempts the upload exactly when [s] is at
    most 48 * 1024 * 1024: a file of exactly 48 MB is uploaded, only a
    larger one is turned down, in both revisions. *)
Theorem ceiling_is_strict (e : env) (url title : jsstring) (duration : number)
    (id : nat) (old : jsstring) (s : N) (w : world) :
  trace w = [] ->
  completes e s ->
  nth_error (chat w) id = Some (Text old) ->
  (forall t, accepts e (EditMessageText id t)) ->
  uploads (trace (snd (V1.downloadVideo e url title duration (Some id) w)))
  = (s <=? ceiling)%N
  /\ uploads (trace (snd (V2.downloadVideo e url title duration (Some id) w)))
     = (s <=? ceiling)%N.
Proof.
  intros Ht Hc Hl He. split.
  - rewrite V1_downloadVideo_measured with (s := s) by exact Hc.
    rewrite over_48_spec, Ht.
    destruct (s <=? ceiling)%N; cbn [negb app].
    + match goal with
      | |- uploads (trace (snd (bind (sendVideo _ ?src ?c) ?k ?w0))) = true =>
          assert (Hk : forall a, emits any (k a)) by shape;
          destruct (first_call_bind any _ _ k (trace_sendVideo e src c) Hk w0)
            as [tl [-> _]]
      end.
      apply uploads_after.
    + apply (emits_keeps no_upload); [shape | reflexivity].
  - rewrite V2_downloadVideo_measured with (s := s) (old := old)
      by assumption.
    rewrite over_48_spec, Ht.
    destruct (s <=? ceiling)%N; cbn [negb app].
    + match goal with
      | |- uploads (trace (snd (try_catch (bind (sendVideo _ ?src ?c) ?k)
                                  ?h ?w0))) = true =>
          assert (Hk : forall a, emits any (k a)) by shape;
          assert (Hh : forall err, emits any (h err)) by shape;
          destruct (first_call any _ _ k h (trace_sendVideo e src c) Hk Hh w0)
            as [tl [-> _]]
      end.
      apply uploads_after.
    + apply (emits_keeps no_upload); [shape | reflexivity].
Qed.

(** ** The duration in a caption *)




(** ** The strategy chosen *)

Lemma selected_after (prefix : list event) f url title duration statusMsg tl :
  quiet prefix ->
  selected (prefix ++ Enter f url title duration statusMsg :: tl) = Some f.
Proof.
  intros Q. unfold selected. rewrite callees_app, Q. reflexivity.
Qed.

Lemma callees_after (prefix : list event) f url title duration statusMsg tl :
  quiet prefix -> quiet tl ->
  callees (prefix ++ Enter f url title duration statusMsg :: tl) = [f].
Proof.
  intros Q1 Q2. rewrite callees_app, Q1.
  change (callees (Enter f url title duration statusMsg :: tl))
    with (f :: callees tl).
  now rewrite Q2.
Qed.

Lemma selected_at_selector e text v w :
  trace w = [] ->
  validateURL e (trim text) = true ->
  (forall t, accepts e (SendMessage t)) ->
  resolves e (trim text) v ->
  (forall t, accepts e (EditMessageText (List.length (chat w)) t)) ->
  selected (trace (snd (V1.on_text e text w)))
  = Some (if le (Number e (lengthSeconds v)) (Int 120)
          then Stream else Download)
  /\ selected (trace (snd (V2.on_text e text w)))
     = Some (if le (Number e (lengthSeconds v)) (Int 120)
             then Stream else Download).
Proof.
  intros Ht Hv Hs Hr He. split.
  - rewrite (V1_on_text_selector e text v w Hv Hs Hr He). cbv zeta.
    destruct (le _ _).
    + destruct (V1_stream_first e (trim text) (slice0 50 (title v))
                  (Number e (lengthSeconds v)) (Some (List.length (chat w)))
                  (at_selector w (trim text)
                     (movie_camera ++ lit " " ++ slice0 50 (title v) ++ nl
                      ++ down_arrow ++ lit " Downloading...")))
        as [tl [-> _]].
      apply selected_after. cbn [at_selector trace]. now rewrite Ht.
    + destruct (V1_download_only e (trim text) (slice0 50 (title v))
                  (Number e (lengthSeconds v)) (Some (List.length (chat w)))
                  (at_selector w (trim text)
                     (movie_camera ++ lit " " ++ slice0 50 (title v) ++ nl
                      ++ down_arrow ++ lit " Downloading...")))
        as [tl [-> _]].
      apply selected_after. cbn [at_selector trace]. now rewrite Ht.
  - rewrite (V2_on_text_selector e text v w Hv Hs Hr He). cbv zeta.
    destruct (le _ _).
    + destruct (V2_stream_first e (trim text) (slice0 50 (title v))
                  (Number e (lengthSeconds v)) (Some (List.length (chat w)))
                  (at_selector w (trim text)
                     (V2.preparing_text (slice0 50 (title v))
                        (Number e (lengthSeconds v)))))
        as [tl [-> _]].
      apply selected_after. cbn [at_selector trace]. now rewrite Ht.
    + destruct (V2_download_only e (trim text) (slice0 50 (title v))
                  (Number e (lengthSeconds v)) (Some (List.length (chat w)))
                  (at_selector w (trim text)
                     (V2.preparing_text (slice0 50 (title v))
                        (Number e (lengthSeconds v)))))
        as [tl [-> _]].
      apply selected_after. cbn [at_selector trace]. now rewrite Ht.
Qed.

(** C2.  Once the URL is accepted, the metadata resolved and the status
    message updated, the first delivery function the handler enters is
    [streamVideo] exactly when the duration [d] is at most 120, and
    [downloadVideo] exactly when it is more, in both revisions. *)
Theorem selector_threshold (e : env) (text : jsstring) (v : videoDetails)
    (d : Z) (w : world) :
  trace w = [] ->
  validateURL e (trim text) = true ->
  (forall t, accepts e (SendMessage t)) ->
  resolves e (trim text) v ->
  (forall t, accepts e (EditMessageText (List.length (chat w)) t)) ->
  Number e (lengthSeconds v) = Int d ->
  (0 <= d)%Z ->
  (selected (trace (snd (V1.on_text e text w))) = Some Stream
   <-> (d <= 120)%Z)
  /\ (selected (trace (snd (V1.on_text e text w))) = Some Download
      <-> (120 < d)%Z)
  /\ (selected (trace (snd (V2.on_text e text w))) = Some Stream
      <-> (d <= 120)%Z)
  /\ (selected (trace (snd (V2.on_text e text w))) = Some Download
      <-> (120 < d)%Z).
Proof.
  intros Ht Hv Hs Hr He HN _.
  destruct (selected_at_selector e text v w Ht Hv Hs Hr He) as [-> ->].
  rewrite HN. cbn [le].
  destruct (Z.leb_spec d 120); repeat split; intros; try lia;
    try discriminate; reflexivity.
Qed.

(** C10.  When [Number(v.lengthSeconds)] is [NaN], the handler does not
    fail at the comparison: it enters [downloadVideo], with [NaN] as the
    duration, and never [streamVideo]. *)
Theorem NaN_duration_downloads (e : env) (text : jsstring) (v : videoDetails)
    (w : world) :
  trace w = [] ->
  validateURL e (trim text) = true ->
  (forall t, accepts e (SendMessage t)) ->
  resolves e (trim text) v ->
  (forall t, accepts e (EditMessageText (List.length (chat w)) t)) ->
  Number e (lengthSeconds v) = NaN ->
  le NaN (Int 120) = false
  /\ callees (trace (snd (V1.on_text e text w))) = [Download]
  /\ callees (trace (snd (V2.on_text e text w))) = [Download]
  /\ In (Enter Download (trim text) (slice0 50 (title v)) NaN
           (Some (List.length (chat w))))
        (trace (snd (V1.on_text e text w)))
  /\ In (Enter Download (trim text) (slice0 50 (title v)) NaN
           (Some (List.length (chat w))))
        (trace (snd (V2.on_text e text w))).
Proof.
  intros Ht Hv Hs Hr He HN.
  rewrite (V1_on_text_selector e text v w Hv Hs Hr He).
  rewrite (V2_on_text_selector e text v w Hv Hs Hr He).
  cbv zeta. rewrite HN. cbn [le].
  match goal with
  | |- context [try_catch (V1.downloadVideo ?e ?u ?t ?d ?s) _ ?w1] =>
      destruct (V1_download_only e u t d s w1) as [tl1 [-> Q1]]
  end.
  match goal with
  | |- context [try_catch (V2.downloadVideo ?e ?u ?t ?d ?s) _ ?w2] =>
      destruct (V2_download_only e u t d s w2) as [tl2 [-> Q2]]
  end.
  cbn [at_selector trace]. rewrite Ht.
  rewrite !callees_after by (reflexivity || assumption).
  repeat split; try reflexivity.
  - apply in_or_app. right. left. reflexivity.
  - apply in_or_app. right. left. reflexivity.
Qed.

(** ** Invalid links *)

Lemma trace_reply_only e t w :
  trace (snd ((reply e t ;; ret tt) w)) = trace w ++ [SendMessage t].
Proof.
  unfold bind, reply, telegram, bind.
  destruct (transport e (steps w) (SendMessage t)); reflexivity.
Qed.

Lemma asks_info_reply tr t :
  asks_info (tr ++ [SendMessage t]) = asks_info tr.
Proof. unfold asks_info. rewrite existsb_app. cbn. apply orb_false_r. Qed.

(** C6.  When [validateURL] rejects the trimmed text, the only call the
    handler makes to any collaborator is the reply that carries the
    invalid-link message: no metadata request goes out. *)
Theorem invalid_link_no_metadata_call (e : env) (text : jsstring) (w : world) :
  validateURL e (trim text) = false ->
  (trace (snd (V1.on_text e text w))
   = trace w ++ [SendMessage (cross_mark ++ lit " Invalid YouTube link")]
   /\ asks_info (trace (snd (V1.on_text e text w))) = asks_info (trace w))
  /\ (trace (snd (V2.on_text e text w))
      = trace w ++ [SendMessage
                      (cross_mark ++ lit " Invalid YouTube link!" ++ nl ++ nl
                       ++ lit "Send a valid YouTube URL.")]
      /\ asks_info (trace (snd (V2.on_text e text w))) = asks_info (trace w)).
Proof.
  intros Hv.
  unfold V1.on_text, V2.on_text. cbv zeta. rewrite Hv. cbn [negb].
  rewrite !trace_reply_only, !asks_info_reply. auto.
Qed.


(** ** How many delivery attempts a request makes *)

Section Attempts.

Variable e : env.

Lemma calls_bind_quiet {A B} (Q : list callee -> Prop) (m : io A)
    (k : A -> io B) :
  emits quiet m -> (forall a, emits (fun tl => Q (callees tl)) (k a)) ->
  Q [] -> emits (fun tl => Q (callees tl)) (bind m k).
Proof.
  intros Hm Hk Q0 w. unfold bind.
  destruct (Hm w) as [t1 [E1 Q1]].
  destruct (m w) as [[a | err] w1]; cbn in E1.
  - destruct (Hk a w1) as [t2 [E2 Q2]].
    exists (t1 ++ t2). rewrite E2, E1, app_assoc. split; [reflexivity |].
    now rewrite callees_app, Q1.
  - exists t1. split; [exact E1 | now rewrite Q1].
Qed.

Lemma calls_try_quiet_handler {A} (Q : list callee -> Prop) (m : io A)
    (h : error -> io A) :
  emits (fun tl => Q (callees tl)) m -> (forall err, emits quiet (h err)) ->
  emits (fun tl => Q (callees tl)) (try_catch m h).
Proof.
  intros Hm Hh w. unfold try_catch.
  destruct (Hm w) as [t1 [E1 Q1]].
  destruct (m w) as [[a | err] w1]; cbn in E1.
  - exists t1. auto.
  - destruct (Hh err w1) as [t2 [E2 Q2]].
    exists (t1 ++ t2). rewrite E2, E1, app_assoc. split; [reflexivity |].
    now rewrite callees_app, Q2, app_nil_r.
Qed.

Lemma calls_try_quiet_body {A} (Q : list callee -> Prop) (m : io A)
    (h : error -> io A) :
  emits quiet m -> (forall err, emits (fun tl => Q (callees tl)) (h err)) ->
  Q [] -> emits (fun tl => Q (callees tl)) (try_catch m h).
Proof.
  intros Hm Hh Q0 w. unfold try_catch.
  destruct (Hm w) as [t1 [E1 Q1]].
  destruct (m w) as [[a | err] w1]; cbn in E1.
  - exists t1. split; [exact E1 | now rewrite Q1].
  - destruct (Hh err w1) as [t2 [E2 Q2]].
    exists (t1 ++ t2). rewrite E2, E1, app_assoc. split; [reflexivity |].
    now rewrite callees_app, Q1.
Qed.

Lemma calls_enter {B} (Q : list callee -> Prop) f url title duration statusMsg
    (k : io B) :
  emits (fun tl => Q (callees tl)) k ->
  emits (fun tl => exists l, callees tl = f :: l /\ Q l)
    (emit (Enter f url title duration statusMsg) ;; k).
Proof.
  intros Hk w. unfold bind. cbn.
  destruct (Hk (snd (emit (Enter f url title duration statusMsg) w)))
    as [t [E Qt]].
  exists (Enter f url title duration statusMsg :: t).
  cbn in E. rewrite E, <- app_assoc. split; [reflexivity |].
  now exists (callees t).
Qed.

Lemma emits_weaken {A} (P P' : list event -> Prop) (m : io A) :
  (forall tl, P tl -> P' tl) -> emits P m -> emits P' m.
Proof.
  intros HP Hm w. destruct (Hm w) as [tl [E Ptl]]. exists tl. auto.
Qed.

(** [downloadVideo] enters no other delivery function. *)
Lemma V1_downloadVideo_calls url title duration statusMsg :
  emits (fun tl => callees tl = [Download])
    (V1.downloadVideo e url title duration statusMsg).
Proof.
  unfold V1.downloadVideo.
  eapply emits_weaken; [| apply (calls_enter (eq []))].
  - intros tl [l [-> <-]]. reflexivity.
  - apply (emits_weaken quiet); [intros tl Q; now rewrite Q |]. shape.
Qed.

Lemma V2_downloadVideo_calls url title duration statusMsg :
  emits (fun tl => callees tl = [Download])
    (V2.downloadVideo e url title duration statusMsg).
Proof.
  unfold V2.downloadVideo.
  eapply emits_weaken; [| apply (calls_enter (eq []))].
  - intros tl [l [-> <-]]. reflexivity.
  - apply (emits_weaken quiet); [intros tl Q; now rewrite Q |]. shape.
Qed.

(** [streamVideo] is entered once and falls back at most once. *)
Lemma V1_streamVideo_calls url title duration statusMsg :
  emits (fun tl => stream_then_download (callees tl))
    (V1.streamVideo e url title duration statusMsg).
Proof.
  unfold V1.streamVideo, V1.stream_attempt.
  eapply emits_weaken; [| apply (calls_enter at_most_download)].
  - intros tl [l [-> [-> | ->]]]; [left | right]; reflexivity.
  - apply calls_try_quiet_body; [shape | | now left].
    intros err. apply calls_bind_quiet; [shape | | now left].
    intros _. eapply emits_weaken; [| apply V1_downloadVideo_calls].
    intros tl ->. now right.
Qed.

Lemma V2_streamVideo_calls url title duration statusMsg :
  emits (fun tl => stream_then_download (callees tl))
    (V2.streamVideo e url title duration statusMsg).
Proof.
  unfold V2.streamVideo, V2.stream_attempt.
  eapply emits_weaken; [| apply (calls_enter at_most_download)].
  - intros tl [l [-> [-> | ->]]]; [left | right]; reflexivity.
  - apply calls_try_quiet_body; [shape | | now left].
    intros err. apply calls_bind_quiet; [shape | | now left].
    intros _. apply calls_bind_quiet; [shape | | now left].
    intros id. apply calls_bind_quiet; [shape | | now left].
    intros _. eapply emits_weaken; [| apply V2_downloadVideo_calls].
    intros tl ->. now right.
Qed.

(** Whatever the collaborators do, a request enters [streamVideo] at most
    once and [downloadVideo] at most once, and never [streamVideo] after
    [downloadVideo]. *)
Lemma V1_on_text_calls text :
  emits (fun tl => one_of_each (callees tl)) (V1.on_text e text).
Proof.
  unfold V1.on_text. cbv zeta.
  destruct (negb _).
  - apply (emits_weaken quiet); [intros tl ->; now left | shape].
  - apply calls_bind_quiet; [shape | | now left].
    intros id0. apply calls_try_quiet_handler;
      [| unfold V1.on_text_catch; shape].
    apply calls_bind_quiet; [shape | | now left].
    intros v. apply calls_bind_quiet; [shape | | now left].
    intros id. apply calls_bind_quiet; [shape | | now left].
    intros _. destruct (le _ _).
    + eapply emits_weaken; [| apply V1_streamVideo_calls].
      intros tl [-> | ->]; unfold one_of_each; auto.
    + eapply emits_weaken; [| apply V1_downloadVideo_calls].
      intros tl ->. unfold one_of_each; auto.
Qed.

Lemma V2_on_text_calls text :
  emits (fun tl => one_of_each (callees tl)) (V2.on_text e text).
Proof.
  unfold V2.on_text. cbv zeta.
  destruct (negb _).
  - apply (emits_weaken quiet); [intros tl ->; now left | shape].
  - apply calls_bind_quiet; [shape | | now left].
    intros id0. apply calls_try_quiet_handler;
      [| unfold V2.on_text_catch; shape].
    apply calls_bind_quiet; [shape | | now left].
    intros v. apply calls_bind_quiet; [shape | | now left].
    intros id. apply calls_bind_quiet; [shape | | now left].
    intros _. destruct (le _ _).
    + eapply emits_weaken; [| apply V2_streamVideo_calls].
      intros tl [-> | ->]; unfold one_of_each; auto.
    + eapply emits_weaken; [| apply V2_downloadVideo_calls].
      intros tl ->. unfold one_of_each; auto.
Qed.

End Attempts.

(** ** The arguments of the fallback *)

#[local] Instance same_request_closed url title duration :
  Closed (Forall (same_request url title duration)).
Proof. split; [constructor | intros t1 t2 H1 H2; now apply Forall_app]. Qed.

#[local] Instance same_call_closed url title duration statusMsg :
  Closed (Forall (same_call url title duration statusMsg)).
Proof. split; [constructor | intros t1 t2 H1 H2; now apply Forall_app]. Qed.

(** Every delivery function entered from [streamVideo] receives the URL,
    the title and the duration that [streamVideo] received; in the first
    revision it receives the status message as well. *)
Lemma V1_streamVideo_same_call e url title duration statusMsg :
  emits (Forall (same_call url title duration statusMsg))
    (V1.streamVideo e url title duration statusMsg).
Proof. unfold V1.streamVideo, V1.stream_attempt, V1.downloadVideo. shape. Qed.

Lemma V2_streamVideo_same_request e url title duration statusMsg :
  emits (Forall (same_request url title duration))
    (V2.streamVideo e url title duration statusMsg).
Proof. unfold V2.streamVideo, V2.stream_attempt, V2.downloadVideo. shape. Qed.

Lemma enter_then (P : list event -> Prop) {B} (ev : event) (k : io B) :
  emits P k ->
  forall w, exists tl,
    trace (snd ((emit ev ;; k) w)) = trace w ++ ev :: tl /\ P tl.
Proof.
  intros Hk w. destruct (Hk (snd (emit ev w))) as [tl [E Ptl]].
  exists tl. split; [| exact Ptl].
  unfold bind. cbn in *. rewrite E, <- app_assoc. reflexivity.
Qed.

(** In the first revision a failure of the streaming attempt, whatever it
    is, is logged and followed at once by [downloadVideo] on the same
    arguments; nothing is shown to the user in between. *)
Lemma V1_fallback_on_failure e url title duration statusMsg w err w1 :
  V1.stream_attempt e url title duration statusMsg
    (snd (emit (Enter Stream url title duration statusMsg) w))
  = (Throw err, w1) ->
  exists tl,
    trace (snd (V1.streamVideo e url title duration statusMsg w))
    = trace w1
      ++ Console (lit "Stream failed, falling back to download...") err
         :: Enter Download url title duration statusMsg :: tl
    /\ quiet tl.
Proof.
  intros E. unfold V1.streamVideo, bind at 1, try_catch. cbn [emit].
  cbn [emit snd] in E. rewrite E.
  unfold console. rewrite run_emit_bind.
  unfold V1.downloadVideo.
  match goal with
  | |- context [bind (emit ?ev) ?k ?w0] =>
      destruct (enter_then quiet ev (k tt) ltac:(shape) w0) as [tl [Etl Q]]
  end.
  exists tl. split; [| exact Q].
  rewrite Etl. cbn [trace]. rewrite <- app_assoc. reflexivity.
Qed.

(** ** The temp file *)


Ltac innermost_match :=
  match goal with
  | |- context [match ?x with _ => _ end] =>
      lazymatch x with
      | context [match _ with _ => _ end] => fail
      | _ => destruct x eqn:?
      end
  end.


Lemma remove_absent path f : lookup path f = None -> remove path f = f.
Proof.
  unfold lookup, remove.
  induction f as [| [p s] f IH]; cbn; [reflexivity |].
  destruct (str_eqb p path) eqn:E; cbn; [discriminate |].
  intros H. now rewrite IH.
Qed.

Lemma remove_put path s f : remove path (put path s f) = remove path f.
Proof.
  unfold put, remove at 1. cbn. rewrite str_eqb_refl. cbn.
  fold (remove path (remove path f)).
  apply remove_absent, lookup_remove.
Qed.






Ltac same_files :=
  let w := fresh "w" in
  intros w;
  unfold reply, editMessageText, deleteMessage, sendVideo, videoDetails_of,
         console, message_id, telegram, detached, bind, ret, throw, emit,
         set_chat;
  cbn [fst snd files];
  repeat (innermost_match; cbn [fst snd files]);
  reflexivity.



(** ** The status message *)

Lemma nth_error_set_nth (c : list chat_message) id x y :
  nth_error c id = Some x -> nth_error (set_nth id y c) id = Some y.
Proof.
  revert id. induction c as [| m c IH]; intros [| id]; cbn;
    try discriminate; [reflexivity | apply IH].
Qed.

Lemma run_unlinkSync path s w :
  lookup path (files w) = Some s ->
  unlinkSync path w
  = (Return tt,
     {| chat := chat w; files := remove path (files w);
        steps := S (steps w); trace := trace w ++ [UnlinkSync path] |}).
Proof. intros E. unfold unlinkSync, bind, emit. cbn. now rewrite E. Qed.

(** X21.  After a complete write of more than 48 MB, [downloadVideo] of
    the second revision removes the file, does not upload, and shows the
    measured size, rounded to one decimal, in the status message. *)
Lemma V2_downloadVideo_too_large e url title duration id old s w :
  let filepath := path_join e (filename_of (Date_now e (S (steps w))) title) in
  let r := V2.downloadVideo e url title duration (Some id) w in
  trace w = [] ->
  completes e s ->
  (ceiling < s)%N ->
  nth_error (chat w) id = Some (Text old) ->
  (forall t, accepts e (EditMessageText id t)) ->
  fst r = Return tt
  /\ nth_error (chat (snd r)) id
     = Some (Text (package ++ lit " Video too large ("
                   ++ toFixed1 (sizeMB_of s) ++ lit "MB)" ++ nl
                   ++ lit "Max: 48MB"))
  /\ lookup filepath (files (snd r)) = None
  /\ unlinks (trace (snd r)) = 1%nat
  /\ uploads (trace (snd r)) = false.
Proof.
  intros filepath r Ht Hc Hs Hl He. subst r.
  rewrite V2_downloadVideo_measured with (s := s) (old := old)
    by assumption.
  cbv zeta. fold filepath. rewrite over_48_spec.
  replace (s <=? ceiling)%N with false by (symmetry; apply N.leb_gt, Hs).
  cbn [negb].
  erewrite try_bind_Return; [| eapply run_unlinkSync; apply lookup_put].
  cbn [message_id].
  erewrite (try_bind_Return (ret _)) by reflexivity.
  unfold try_catch.
  erewrite run_editMessageText;
    [| apply He | cbn [chat]; eapply nth_error_set_nth, Hl].
  cbn [fst snd chat files trace]. rewrite Ht.
  repeat split.
  - eapply nth_error_set_nth, nth_error_set_nth, Hl.
  - apply lookup_remove.
Qed.

Lemma nth_error_mid {A} (c : list A) x rest :
  nth_error (c ++ x :: rest) (List.length c) = Some x.
Proof. rewrite nth_error_app2, Nat.sub_diag by lia. reflexivity. Qed.

Lemma set_nth_mid (c : list chat_message) x y rest :
  set_nth (List.length c) y (c ++ x :: rest) = c ++ y :: rest.
Proof. induction c as [| m c IH]; cbn; [reflexivity | now rewrite IH]. Qed.

(** X20.  When the transport carries out what is asked of the status
    message (sending, editing, deleting), a request of the first revision
    ends
    with that message deleted and a video delivered, or with the message
    showing one of the two error texts. *)
Lemma V1_status_resolved e text w :
  validateURL e (trim text) = true ->
  (forall t, accepts e (SendMessage t)) ->
  (forall id t, accepts e (EditMessageText id t)) ->
  (forall id, accepts e (DeleteMessage id)) ->
  let c' := chat (snd (V1.on_text e text w)) in
  (exists rest, c' = chat w ++ Deleted :: rest /\ delivered rest = true)
  \/ (exists rest,
        c' = chat w
             ++ Text (cross_mark ++ lit " Failed to process video") :: rest)
  \/ (exists rest, c' = chat w ++ Text V1.too_large_text :: rest).
Proof.
  unfold accepts. intros Hv Hs He Hd.
  unfold V1.on_text, V1.streamVideo, V1.stream_attempt, V1.downloadVideo,
    V1.on_text_catch.
  cbv zeta. rewrite Hv. cbn [negb].
  unfold reply, editMessageText, deleteMessage, sendVideo, videoDetails_of,
         ytdl, createWriteStream, pipe_and_wait, statSync_size, existsSync,
         unlinkSync, console, now, message_id, telegram, detached,
         try_catch, bind, ret, throw, emit, set_chat, set_files.
  cbn [fst snd chat files steps trace].
  repeat (first [ rewrite Hs | rewrite He | rewrite Hd
                | rewrite lookup_put | rewrite lookup_remove
                | rewrite <- app_assoc; cbn [app]
                | rewrite nth_error_mid | rewrite set_nth_mid
                | innermost_match ];
          cbn [fst snd chat files steps trace app]).
  all: solve [ left; eexists; split; reflexivity
             | right; left; eexists; reflexivity
             | right; right; eexists; reflexivity ].
Qed.

(** ** Worked runs *)

Import Examples.

Lemma selector_threshold_witness :
  selected (trace (snd (V1.on_text (studio (zoo "120") MB no_fault)
                          zoo_url idle))) = Some Stream
  /\ selected (trace (snd (V1.on_text (studio (zoo "121") MB no_fault)
                             zoo_url idle))) = Some Download
  /\ selected (trace (snd (V2.on_text (studio (zoo "120") MB no_fault)
                             zoo_url idle))) = Some Stream
  /\ selected (trace (snd (V2.on_text (studio (zoo "121") MB no_fault)
                             zoo_url idle))) = Some Download.
Proof.
  destruct (selector_threshold (studio (zoo "120") MB no_fault) zoo_url
              (zoo "120") 120 idle) as (A & _ & C & _);
    [ reflexivity | vm_compute; reflexivity | intros t k; reflexivity
    | intros k; reflexivity | intros t k; reflexivity
    | vm_compute; reflexivity | lia | ].
  destruct (selector_threshold (studio (zoo "121") MB no_fault) zoo_url
              (zoo "121") 121 idle) as (_ & B & _ & D);
    [ reflexivity | vm_compute; reflexivity | intros t k; reflexivity
    | intros k; reflexivity | intros t k; reflexivity
    | vm_compute; reflexivity | lia | ].
  refine (conj _ (conj _ (conj _ _)));
    [apply A | apply B | apply C | apply D]; lia.
Defined.

Lemma NaN_duration_downloads_witness :
  Number_digits (lit "N/A") = NaN
  /\ callees (trace (snd (V1.on_text (studio (zoo "N/A") MB no_fault)
                            zoo_url idle))) = [Download]
  /\ callees (trace (snd (V2.on_text (studio (zoo "N/A") MB no_fault)
                            zoo_url idle))) = [Download].
Proof.
  destruct (NaN_duration_downloads (studio (zoo "N/A") MB no_fault) zoo_url
              (zoo "N/A") idle) as (_ & A & B & _);
    [ reflexivity | vm_compute; reflexivity | intros t k; reflexivity
    | intros k; reflexivity | intros t k; reflexivity
    | vm_compute; reflexivity | ].
  refine (conj _ (conj _ _)); [vm_compute; reflexivity | exact A | exact B].
Defined.

Lemma invalid_link_no_metadata_call_witness :
  validateURL (studio (zoo "19") MB no_fault)
    (trim (lit "not-a-youtube-link")) = false
  /\ trace (snd (V1.on_text (studio (zoo "19") MB no_fault)
                   (lit "not-a-youtube-link") idle))
     = [SendMessage (cross_mark ++ lit " Invalid YouTube link")]
  /\ trace (snd (V2.on_text (studio (zoo "19") MB no_fault)
                   (lit "not-a-youtube-link") idle))
     = [SendMessage (cross_mark ++ lit " Invalid YouTube link!" ++ nl ++ nl
                     ++ lit "Send a valid YouTube URL.")].
Proof.
  assert (H : validateURL (studio (zoo "19") MB no_fault)
                (trim (lit "not-a-youtube-link")) = false)
    by (vm_compute; reflexivity).
  destruct (invalid_link_no_metadata_call (studio (zoo "19") MB no_fault)
              (lit "not-a-youtube-link") idle H) as ((A & _) & (B & _)).
  refine (conj _ (conj _ _)); [exact H | exact A | exact B].
Defined.



Lemma ceiling_is_strict_witness :
  uploads (trace (snd (V1.downloadVideo (studio (zoo "212") (48 * MB) no_fault)
                         zoo_url (lit "Me at the zoo") (Int 212) (Some 0%nat)
                         waiting))) = true
  /\ uploads (trace (snd (V2.downloadVideo
                            (studio (zoo "212") (48 * MB) no_fault)
                            zoo_url (lit "Me at the zoo") (Int 212)
                            (Some 0%nat) waiting))) = true
  /\ uploads (trace (snd (V1.downloadVideo
                            (studio (zoo "212") (48 * MB + 1) no_fault)
                            zoo_url (lit "Me at the zoo") (Int 212)
                            (Some 0%nat) waiting))) = false
  /\ uploads (trace (snd (V2.downloadVideo
                            (studio (zoo "212") (48 * MB + 1) no_fault)
                            zoo_url (lit "Me at the zoo") (Int 212)
                            (Some 0%nat) waiting))) = false.
Proof.
  destruct (ceiling_is_strict (studio (zoo "212") (48 * MB) no_fault)
              zoo_url (lit "Me at the zoo") (Int 212) 0
              (hourglass ++ lit " Fetching video info...") (48 * MB) waiting)
    as (A & B);
    [ reflexivity | intros k; reflexivity | reflexivity
    | intros t k; reflexivity | ].
  destruct (ceiling_is_strict (studio (zoo "212") (48 * MB + 1) no_fault)
              zoo_url (lit "Me at the zoo") (Int 212) 0
              (hourglass ++ lit " Fetching video info...") (48 * MB + 1)
              waiting)
    as (C & D);
    [ reflexivity | intros k; reflexivity | reflexivity
    | intros t k; reflexivity | ].
  refine (conj _ (conj _ (conj _ _)));
    [exact A | exact B | exact C | exact D].
Defined.

(** C1 (index.js).  A long video whose upload the transport refuses, and
    one whose transfer breaks after 4096 bytes: [downloadVideo] of the
    first revision has no [catch], the exception leaves it before
    [fs.unlinkSync], and the temp file is still in the scratch directory
    when the handler has finished. *)
Theorem V1_leaves_temp_file :
  let refused :=
    V1.on_text (studio (zoo "212") (10 * MB) upload_refused) zoo_url idle in
  let broken := V1.on_text (broken_studio (zoo "212") 4096) zoo_url idle in
  fst refused = Return tt
  /\ files (snd refused) = [(zoo_file, 10 * MB)%N]
  /\ unlinks (trace (snd refused)) = 0%nat
  /\ fst broken = Return tt
  /\ files (snd broken) = [(zoo_file, 4096%N)]
  /\ unlinks (trace (snd broken)) = 0%nat.
Proof. vm_compute. repeat split; reflexivity. Qed.

(** The second revision on the same two requests: its [catch] removes the
    file, once. *)
Remark V2_removes_temp_file :
  let refused :=
    V2.on_text (studio (zoo "212") (10 * MB) upload_refused) zoo_url idle in
  let broken := V2.on_text (broken_studio (zoo "212") 4096) zoo_url idle in
  files (snd refused) = [] /\ unlinks (trace (snd refused)) = 1%nat
  /\ files (snd broken) = [] /\ unlinks (trace (snd broken)) = 1%nat.
Proof. vm_compute. repeat split; reflexivity. Qed.

(** C3 (index.js).  A file of 49 MB and one of 100 MB: the first revision
    removes the file and does not upload, but the text it shows is the
    same constant for both, so the measured size is not reported. *)
Theorem V1_too_large_text_omits_size :
  let r49 := V1.on_text (studio (zoo "212") (49 * MB) no_fault) zoo_url idle in
  let r100 :=
    V1.on_text (studio (zoo "212") (100 * MB) no_fault) zoo_url idle in
  chat (snd r49) = [Text (package ++ lit " Video too large (max 48MB)")]
  /\ chat (snd r100) = chat (snd r49)
  /\ files (snd r49) = [] /\ uploads (trace (snd r49)) = false.
Proof. vm_compute. repeat split; reflexivity. Qed.

(** The second revision on the 49 MB file, and on one of 47 MB. *)
Remark V2_too_large_text_has_size :
  let r49 := V2.on_text (studio (zoo "212") (49 * MB) no_fault) zoo_url idle in
  let r47 := V2.on_text (studio (zoo "212") (47 * MB) no_fault) zoo_url idle in
  chat (snd r49)
  = [Text (package ++ lit " Video too large (49.0MB)" ++ nl ++ lit "Max: 48MB")]
  /\ files (snd r49) = [] /\ uploads (trace (snd r49)) = false
  /\ uploads (trace (snd r47)) = true /\ delivered (chat (snd r47)) = true
  /\ files (snd r47) = [].
Proof. vm_compute. repeat split; reflexivity. Qed.

(** C4 (part_000).  A 19-second video whose live stream the transport
    refuses.  The [catch] of [streamVideo] calls [downloadVideo] with the
    same URL, title and duration but without [statusMsg]; the call throws
    on [statusMsg.message_id] before any media stream is opened, so no
    download takes place and no video is delivered.  When the deletion of
    the status message is refused as well, [downloadVideo] is not entered
    at all. *)
Theorem V2_fallback_never_downloads :
  let r := V2.on_text (studio (zoo "19") MB stream_refused) zoo_url idle in
  let r2 :=
    V2.on_text (studio (zoo "19") MB stream_and_delete_refused)
      zoo_url idle in
  callees (trace (snd r)) = [Stream; Download]
  /\ In (Enter Download zoo_url (lit "Me at the zoo") (Int 19) None)
        (trace (snd r))
  /\ opens_download (trace (snd r)) = false
  /\ delivered (chat (snd r)) = false
  /\ callees (trace (snd r2)) = [Stream].
Proof.
  vm_compute. repeat split; try reflexivity.
  do 9 right. left. reflexivity.
Qed.

(** The first revision on the same request: the fallback downloads and
    delivers. *)
Remark V1_fallback_downloads :
  let r := V1.on_text (studio (zoo "19") MB stream_refused) zoo_url idle in
  fst r = Return tt
  /\ callees (trace (snd r)) = [Stream; Download]
  /\ In (Enter Download zoo_url (lit "Me at the zoo") (Int 19) (Some 0%nat))
        (trace (snd r))
  /\ opens_download (trace (snd r)) = true
  /\ delivered (chat (snd r)) = true
  /\ nth_error (chat (snd r)) 0 = Some Deleted.
Proof.
  vm_compute. repeat split; try reflexivity.
  do 7 right. left. reflexivity.
Qed.

(** C5 (part_000).  On the same request the status message ends deleted
    although nothing was delivered: the [catch] of [streamVideo] deletes
    it before the fallback, and the handler's report of the failure is an
    edit of a message that is no longer there. *)
Theorem V2_status_deleted_without_delivery :
  let r := V2.on_text (studio (zoo "19") MB stream_refused) zoo_url idle in
  fst r = Throw (Error (lit "Bad Request: message to edit not found"))
  /\ chat (snd r) = [Deleted]
  /\ delivered (chat (snd r)) = false.
Proof. vm_compute. repeat split; reflexivity. Qed.

(** * Further properties of the two revisions *)

(** ** The name of the temp file *)

Lemma safe_uint_units (d : Decimal.uint) :
  forallb safe_unit (uint_units d) = true.
Proof. induction d; cbn [uint_units forallb]; try rewrite IHd; reflexivity. Qed.

Lemma safe_decimal (z : Z) : forallb safe_unit (decimal z) = true.
Proof.
  destruct z; cbn [decimal forallb]; rewrite ?safe_uint_units; reflexivity.
Qed.

Lemma safe_replace_non_alnum (s : jsstring) :
  forallb safe_unit (replace_non_alnum s) = true.
Proof.
  unfold replace_non_alnum. induction s as [| c s IH]; [reflexivity |].
  cbn [map forallb]. rewrite IH, andb_true_r.
  destruct (is_alnum c) eqn:E; [| reflexivity].
  unfold safe_unit. now rewrite E.
Qed.

Lemma safe_filename (stamp : Z) (title : jsstring) :
  forallb safe_unit (filename_of stamp title) = true.
Proof.
  unfold filename_of.
  rewrite !forallb_app, safe_decimal, safe_replace_non_alnum. reflexivity.
Qed.

(** X1.  Whatever the clock reading and the title, the name of the temp
    file holds only ASCII letters, digits, underscores, hyphens and dots:
    no slash, no backslash, no NUL; and the title contributes exactly as
    many code units as it has. *)
Theorem filename_is_safe (stamp : Z) (title : jsstring) :
  forallb safe_unit (filename_of stamp title) = true
  /\ ~ In 47%N (filename_of stamp title)
  /\ ~ In 92%N (filename_of stamp title)
  /\ ~ In 0%N (filename_of stamp title)
  /\ List.length (filename_of stamp title)
     = (List.length (decimal stamp) + 5 + List.length title)%nat.
Proof.
  pose proof (safe_filename stamp title) as H.
  rewrite forallb_forall in H.
  repeat split.
  - now apply forallb_forall.
  - intros I. apply H in I. discriminate.
  - intros I. apply H in I. discriminate.
  - intros I. apply H in I. discriminate.
  - unfold filename_of, replace_non_alnum.
    rewrite !length_app, length_map. cbn. lia.
Qed.

(** ** Surrounding white space *)

Lemma trimStart_fixed (s : jsstring) :
  match s with [] => True | c :: _ => is_space c = false end ->
  trimStart s = s.
Proof. destruct s as [| c s]; [reflexivity |]. cbn. now intros ->. Qed.

Lemma trimStart_head (s : jsstring) :
  match trimStart s with [] => True | c :: _ => is_space c = false end.
Proof.
  induction s as [| c s IH]; [exact I |].
  cbn. destruct (is_space c) eqn:E; [exact IH | exact E].
Qed.

Lemma trimStart_suffix (s : jsstring) : exists p, s = p ++ trimStart s.
Proof.
  induction s as [| c s [p IH]]; [now exists [] |].
  cbn. destruct (is_space c).
  - exists (c :: p). cbn. now rewrite <- IH.
  - now exists [].
Qed.

Lemma trim_idempotent (s : jsstring) : trim (trim s) = trim s.
Proof.
  unfold trim.
  pose proof (trimStart_head s) as Ha.
  set (a := trimStart s) in *.
  pose proof (trimStart_head (rev a)) as Hb.
  destruct (trimStart_suffix (rev a)) as [p Hp].
  set (b := trimStart (rev a)) in *.
  assert (Hrb : trimStart (rev b) = rev b).
  { apply trimStart_fixed.
    assert (Ea : a = rev b ++ rev p).
    { rewrite <- rev_app_distr, <- Hp. now rewrite rev_involutive. }
    destruct (rev b) as [| c r] eqn:Er; [exact I |].
    rewrite Ea in Ha. exact Ha. }
  rewrite Hrb, rev_involutive.
  f_equal. apply trimStart_fixed. exact Hb.
Qed.

(** X2.  The handler reads the message through [text.trim()] only: white
    space and line ends around the link change nothing of a run, in
    either revision. *)
Theorem on_text_ignores_surrounding_space (e : env) (text : jsstring)
    (w : world) :
  V1.on_text e (trim text) w = V1.on_text e text w
  /\ V2.on_text e (trim text) w = V2.on_text e text w.
Proof.
  unfold V1.on_text, V2.on_text. cbv zeta.
  rewrite trim_idempotent. split; reflexivity.
Qed.

(** ** Failures before the selector *)

Lemma run_reply_refused e t err w :
  transport e (steps w) (SendMessage t) = Some err ->
  reply e t w
  = (Throw err,
     {| chat := chat w; files := files w;
        steps := S (steps w); trace := trace w ++ [SendMessage t] |}).
Proof. intros E. unfold reply, telegram, bind. now rewrite E. Qed.

Lemma bind_Throw_run {A B} (m : io A) (k : A -> io B) w err w' :
  m w = (Throw err, w') -> bind m k w = (Throw err, w').
Proof. intros E. unfold bind. now rewrite E. Qed.

(** X3.  When the link is valid but the transport refuses the status
    message, the handler rejects with the transport's error after that
    single call: no metadata request goes out, and the chat and the
    scratch directory are as before. *)
Theorem status_reply_refused_aborts (e : env) (text : jsstring) (err : error)
    (w : world) :
  validateURL e (trim text) = true ->
  (forall t, transport e (steps w) (SendMessage t) = Some err) ->
  let after :=
    {| chat := chat w; files := files w; steps := S (steps w);
       trace := trace w
                ++ [SendMessage (hourglass ++ lit " Fetching video info...")] |}
  in
  V1.on_text e text w = (Throw err, after)
  /\ V2.on_text e text w = (Throw err, after).
Proof.
  intros Hv Hs after. subst after.
  unfold V1.on_text, V2.on_text. cbv zeta. rewrite Hv. cbn [negb].
  split; (erewrite bind_Throw_run by (apply run_reply_refused, Hs));
    reflexivity.
Qed.

Lemma run_videoDetails_of_refused e url err w :
  getInfo e (steps w) url = Throw err ->
  videoDetails_of e url w
  = (Throw err,
     {| chat := chat w; files := files w;
        steps := S (steps w); trace := trace w ++ [GetInfo url] |}).
Proof. intros E. unfold videoDetails_of. now rewrite E. Qed.

Lemma try_bind_Throw {A B} (m : io A) (k : A -> io B) h w err w' :
  m w = (Throw err, w') ->
  try_catch (bind m k) h w = h err w'.
Proof. intros E. unfold try_catch, bind. now rewrite E. Qed.

(** X4.  When the metadata request fails, the handler enters no delivery
    function, leaves the scratch directory alone, turns the status
    message into a failure text and resolves normally.  The first
    revision shows a fixed text, the second one quotes the error's
    message. *)
Theorem metadata_failure_is_reported (e : env) (text : jsstring) (err : error)
    (w : world) :
  validateURL e (trim text) = true ->
  (forall t, accepts e (SendMessage t)) ->
  (forall k, getInfo e k (trim text) = Throw err) ->
  (forall t, accepts e (EditMessageText (List.length (chat w)) t)) ->
  let r1 := V1.on_text e text w in
  let r2 := V2.on_text e text w in
  (fst r1 = Return tt
   /\ chat (snd r1)
      = chat w ++ [Text (cross_mark ++ lit " Failed to process video")]
   /\ files (snd r1) = files w
   /\ trace (snd r1)
      = trace w
        ++ [SendMessage (hourglass ++ lit " Fetching video info...");
            GetInfo (trim text);
            Console (lit "") err;
            EditMessageText (List.length (chat w))
              (cross_mark ++ lit " Failed to process video")])
  /\ (fst r2 = Return tt
      /\ chat (snd r2) = chat w ++ [Text (processing_failed_text err)]
      /\ files (snd r2) = files w
      /\ trace (snd r2)
         = trace w
           ++ [SendMessage (hourglass ++ lit " Fetching video info...");
               GetInfo (trim text);
               Console (lit "Video processing error:") err;
               EditMessageText (List.length (chat w))
                 (processing_failed_text err)]).
Proof.
  intros Hv Hs Hg He r1 r2. subst r1 r2.
  unfold V1.on_text, V2.on_text. cbv zeta. rewrite Hv. cbn [negb].
  erewrite !bind_Return by (apply run_reply, Hs).
  erewrite !try_bind_Throw by (apply run_videoDetails_of_refused, Hg).
  unfold V1.on_text_catch, V2.on_text_catch, console.
  rewrite !run_emit_bind. cbn [message_id].
  erewrite !(bind_Return (ret _)) by reflexivity.
  erewrite !run_editMessageText;
    [| apply He | cbn [chat]; apply nth_error_snoc
     | apply He | cbn [chat]; apply nth_error_snoc ].
  cbn [fst snd chat files steps trace].
  rewrite !set_nth_snoc, <- !app_assoc.
  repeat split; reflexivity.
Qed.

(** ** Errors stop at the request boundary *)

Ltac run_request Hs He :=
  unfold reply, editMessageText, deleteMessage, sendVideo, videoDetails_of,
         ytdl, createWriteStream, pipe_and_wait, statSync_size, existsSync,
         unlinkSync, console, now, message_id, telegram, detached,
         try_catch, bind, ret, throw, emit, set_chat, set_files;
  cbn [fst snd chat files steps trace];
  repeat (first [ rewrite Hs | rewrite He
                | rewrite lookup_put | rewrite lookup_remove
                | rewrite <- app_assoc; cbn [app]
                | rewrite nth_error_mid | rewrite set_nth_mid
                | innermost_match ];
          cbn [fst snd chat files steps trace app]).

(** X5.  A request of the first revision never rejects when the transport
    accepts the bot's text messages and their edits: whatever the
    resolver, the transfer, the uploads and the deletions do, every error
    is caught by the handler and the request resolves normally. *)
Theorem V1_request_never_rejects (e : env) (text : jsstring) (w : world) :
  (forall t, accepts e (SendMessage t)) ->
  (forall id t, accepts e (EditMessageText id t)) ->
  fst (V1.on_text e text w) = Return tt.
Proof.
  unfold accepts. intros Hs He.
  unfold V1.on_text, V1.streamVideo, V1.stream_attempt, V1.downloadVideo,
    V1.on_text_catch.
  cbv zeta. run_request Hs He.
  all: reflexivity.
Qed.


(** [downloadVideo] of the second revision, entered with the status
    message last in the chat, over a transport that accepts its edits:
    it returns normally, whatever else happens, with the status message
    deleted after a delivery, or showing the too-large text, or showing
    the download-failed text. *)
Lemma V2_downloadVideo_resolves e url title duration c status w :
  (forall id t, accepts e (EditMessageText id t)) ->
  chat w = c ++ [Text status] ->
  let r := V2.downloadVideo e url title duration (Some (List.length c)) w in
  fst r = Return tt
  /\ ((exists rest,
         chat (snd r) = c ++ Deleted :: rest /\ delivered rest = true)
      \/ (exists size rest,
            chat (snd r)
            = c ++ Text (V2.too_large_text (sizeMB_of size)) :: rest)
      \/ (exists err rest,
            chat (snd r) = c ++ Text (download_failed_text err) :: rest)).
Proof.
  unfold accepts. intros He Hc.
  unfold V2.downloadVideo.
  unfold reply, editMessageText, deleteMessage, sendVideo, videoDetails_of,
         ytdl, createWriteStream, pipe_and_wait, statSync_size, existsSync,
         unlinkSync, console, now, message_id, telegram, detached,
         try_catch, bind, ret, throw, emit, set_chat, set_files.
  cbn [fst snd chat files steps trace]. rewrite Hc.
  repeat (first [ rewrite He
                | rewrite lookup_put | rewrite lookup_remove
                | rewrite <- app_assoc; cbn [app]
                | rewrite nth_error_mid | rewrite set_nth_mid
                | innermost_match ];
          cbn [fst snd chat files steps trace app]).
  all: try congruence.
  all: split; [reflexivity |].
  all: first [ left; eexists; split; reflexivity
             | right; left; do 2 eexists; reflexivity
             | right; right; do 2 eexists; reflexivity ].
Qed.

Lemma run_videoDetails_of_cases e url w :
  (exists v, videoDetails_of e url w
             = (Return v,
                {| chat := chat w; files := files w; steps := S (steps w);
                   trace := trace w ++ [GetInfo url] |}))
  \/ (exists err, videoDetails_of e url w
                  = (Throw err,
                     {| chat := chat w; files := files w;
                        steps := S (steps w);
                        trace := trace w ++ [GetInfo url] |})).
Proof.
  unfold videoDetails_of. destruct (getInfo e (steps w) url) as [v | err];
    [left | right]; eexists; reflexivity.
Qed.

(** X6.  In the second revision a request rejects only after it has
    entered [streamVideo]: with a transport that accepts the bot's text
    messages and their edits, a request that goes straight to
    [downloadVideo], or that fails before the selector, resolves
    normally. *)
Theorem V2_request_rejects_only_after_stream (e : env) (text : jsstring)
    (w : world) :
  trace w = [] ->
  (forall t, accepts e (SendMessage t)) ->
  (forall id t, accepts e (EditMessageText id t)) ->
  fst (V2.on_text e text w) = Return tt
  \/ selected (trace (snd (V2.on_text e text w))) = Some Stream.
Proof.
  intros Ht Hs He. unfold V2.on_text. cbv zeta.
  destruct (validateURL e (trim text)); cbn [negb].
  2:{ left. erewrite bind_Return by (apply run_reply, Hs). reflexivity. }
  erewrite bind_Return by (apply run_reply, Hs).
  match goal with
  | |- context [videoDetails_of e ?u] =>
      match goal with
      | |- context [try_catch _ _ ?w1] =>
          destruct (run_videoDetails_of_cases e u w1) as [[v E] | [err E]]
      end
  end.
  - erewrite try_bind_Return by exact E. cbn [message_id].
    erewrite (try_bind_Return (ret _)) by reflexivity.
    erewrite try_bind_Return;
      [| eapply run_editMessageText; [apply He | apply nth_error_snoc]].
    cbn [chat files steps trace]. rewrite set_nth_snoc.
    destruct (le _ _).
    + right.
      match goal with
      | |- context [try_catch (V2.streamVideo ?e ?u ?t ?d ?s) _ ?w3] =>
          destruct (V2_stream_first e u t d s w3) as [tl [-> _]]
      end.
      cbn [trace]. rewrite Ht. apply selected_after. reflexivity.
    + left. unfold try_catch.
      match goal with
      | |- context [V2.downloadVideo ?e ?u ?t ?d (Some (List.length ?c)) ?w3] =>
          destruct (V2_downloadVideo_resolves e u t d c _ w3 He eq_refl)
            as [R _];
          destruct (V2.downloadVideo e u t d (Some (List.length c)) w3)
            as [[[] | err] w4]
      end; [reflexivity | discriminate].
  - left. erewrite try_bind_Throw by exact E.
    unfold V2.on_text_catch, console. rewrite run_emit_bind.
    cbn [message_id].
    erewrite (bind_Return (ret _)) by reflexivity.
    erewrite run_editMessageText; [reflexivity | apply He |].
    cbn [chat]. apply nth_error_snoc.
Qed.


(** ** The fallback, whatever the collaborators do *)

(** X8.  Whatever the collaborators do, a request enters [streamVideo] at
    most once and [downloadVideo] at most once, and never [streamVideo]
    after [downloadVideo], in either revision. *)
Theorem attempts_bounded (e : env) (text : jsstring) (w : world) :
  trace w = [] ->
  one_of_each (callees (trace (snd (V1.on_text e text w))))
  /\ one_of_each (callees (trace (snd (V2.on_text e text w)))).
Proof.
  intros Ht.
  destruct (V1_on_text_calls e text w) as [t1 [-> H1]].
  destruct (V2_on_text_calls e text w) as [t2 [-> H2]].
  rewrite Ht. split; assumption.
Qed.

(** X9.  Every delivery function entered during [streamVideo] receives
    the URL, the title and the duration that [streamVideo] received; in
    the first revision it receives the status message as well. *)
Theorem fallback_keeps_arguments (e : env) (url title : jsstring)
    (duration : number) (statusMsg : option nat) (w : world) :
  trace w = [] ->
  Forall (same_call url title duration statusMsg)
    (trace (snd (V1.streamVideo e url title duration statusMsg w)))
  /\ Forall (same_request url title duration)
       (trace (snd (V2.streamVideo e url title duration statusMsg w))).
Proof.
  intros Ht.
  destruct (V1_streamVideo_same_call e url title duration statusMsg w)
    as [t1 [-> H1]].
  destruct (V2_streamVideo_same_request e url title duration statusMsg w)
    as [t2 [-> H2]].
  rewrite Ht. split; assumption.
Qed.

Lemma V1_stream_attempt_quiet e url title duration statusMsg :
  emits quiet (V1.stream_attempt e url title duration statusMsg).
Proof. unfold V1.stream_attempt. shape. Qed.

(** X10.  In the first revision [streamVideo] falls back exactly when its
    streaming attempt throws: after a failed attempt [downloadVideo] is
    entered once, and after a successful one it is not entered. *)
Theorem V1_falls_back_exactly_on_failure (e : env) (url title : jsstring)
    (duration : number) (statusMsg : option nat) (w : world) :
  trace w = [] ->
  let attempt :=
    V1.stream_attempt e url title duration statusMsg
      (snd (emit (Enter Stream url title duration statusMsg) w)) in
  let entered :=
    callees (trace (snd (V1.streamVideo e url title duration statusMsg w))) in
  match fst attempt with
  | Return _ => entered = [Stream]
  | Throw _ => entered = [Stream; Download]
  end.
Proof.
  intros Ht attempt entered. subst attempt entered.
  destruct (V1.stream_attempt e url title duration statusMsg
              (snd (emit (Enter Stream url title duration statusMsg) w)))
    as [[[] | err] w1] eqn:E; cbn [fst].
  - destruct (V1_stream_attempt_quiet e url title duration statusMsg
                (snd (emit (Enter Stream url title duration statusMsg) w)))
      as [tl [Etl Q]].
    rewrite E in Etl. cbn [snd emit trace] in Etl.
    unfold V1.streamVideo, bind at 1, try_catch. cbn [emit].
    cbn [emit snd] in E. rewrite E. cbn [snd].
    rewrite Etl, Ht, !callees_app, Q. reflexivity.
  - destruct (V1_stream_attempt_quiet e url title duration statusMsg
                (snd (emit (Enter Stream url title duration statusMsg) w)))
      as [tl [Etl Q]].
    rewrite E in Etl. cbn [snd emit trace] in Etl.
    destruct (V1_fallback_on_failure e url title duration statusMsg w err w1 E)
      as [tl2 [-> Q2]].
    rewrite Etl, Ht, <- !app_assoc, !callees_app, Q.
    cbn [app]. 
    change (callees (Console (lit "Stream failed, falling back to download...")
                       err
                     :: Enter Download url title duration statusMsg :: tl2))
      with (Download :: callees tl2).
    unfold quiet in Q2. now rewrite Q2.
Qed.

Lemma delivered_set_nth_Deleted (c : list chat_message) (n : nat) :
  delivered (set_nth n Deleted c) = true -> delivered c = true.
Proof.
  revert n. induction c as [| m c IH]; intros [| n]; cbn; try easy.
  - intros H. now rewrite H, orb_true_r.
  - destruct m; cbn; try easy; apply IH.
Qed.

(** X11.  In the second revision a failed streaming attempt is never
    made good: whatever the collaborators do next, [streamVideo] rejects,
    no download stream is opened, no file is written and no video is
    sent after the failure. *)
Theorem V2_failed_stream_is_final (e : env) (url title : jsstring)
    (duration : number) (statusMsg : option nat) (w w1 : world) (err : error) :
  V2.stream_attempt e url title duration statusMsg
    (snd (emit (Enter Stream url title duration statusMsg) w))
  = (Throw err, w1) ->
  let r := V2.streamVideo e url title duration statusMsg w in
  (exists err', fst r = Throw err')
  /\ (exists tl, trace (snd r) = trace w1 ++ tl
                 /\ opens_download tl = false
                 /\ uploads tl = false
                 /\ existsb (fun ev => match ev with
                                       | CreateWriteStream _ | Pipe _ => true
                                       | SendVideo _ _ => true
                                       | _ => false
                                       end) tl = false)
  /\ (delivered (chat (snd r)) = true -> delivered (chat w1) = true).
Proof.
  intros E r. subst r.
  assert (Hrun : V2.streamVideo e url title duration statusMsg w
                 = (console (lit "Stream failed, trying download...") err ;;
                    id <- message_id statusMsg ;;
                    deleteMessage e id ;;
                    V2.downloadVideo e url title duration None) w1).
  { unfold V2.streamVideo, bind at 1, try_catch. cbn [emit].
    cbn [emit snd] in E. now rewrite E. }
  rewrite Hrun. clear Hrun E.
  unfold V2.downloadVideo.
  unfold reply, editMessageText, deleteMessage, sendVideo, videoDetails_of,
         ytdl, createWriteStream, pipe_and_wait, statSync_size, existsSync,
         unlinkSync, console, now, message_id, telegram, detached,
         try_catch, bind, ret, throw, emit, set_chat, set_files.
  cbn [fst snd chat files steps trace].
  repeat (first [ rewrite <- app_assoc; cbn [app] | innermost_match ];
          cbn [fst snd chat files steps trace app]).
  all: split; [eexists; reflexivity |].
  all: split; [eexists; split; [reflexivity | repeat split; reflexivity] |].
  all: first [ apply delivered_set_nth_Deleted | intros H; exact H ].
Qed.

(** ** The scratch directory, whatever the collaborators do *)



Lemma run_pipe_fail e path err partial w :
  transfer e (steps w) = Fail err partial ->
  pipe_and_wait e path w
  = (Throw err,
     {| chat := chat w;
        files := match partial with
                 | Some size => put path size (files w)
                 | None => files w
                 end;
        steps := S (steps w); trace := trace w ++ [Pipe path] |}).
Proof.
  intros E. unfold pipe_and_wait. rewrite E.
  destruct partial; reflexivity.
Qed.

(** X14.  When the transfer breaks, [downloadVideo] of the first revision
    hands the transfer's error to its caller unchanged, after four calls:
    it neither measures nor uploads nor removes anything, and the bytes
    already written stay in the scratch directory. *)
Theorem V1_transfer_error_escapes (e : env) (url title : jsstring)
    (duration : number) (statusMsg : option nat) (err : error)
    (partial : option N) (w : world) :
  (forall k, transfer e k = Fail err partial) ->
  let filepath := path_join e (filename_of (Date_now e (S (steps w))) title) in
  V1.downloadVideo e url title duration statusMsg w
  = (Throw err,
     {| chat := chat w;
        files := match partial with
                 | Some size => put filepath size (files w)
                 | None => files w
                 end;
        steps := 4 + steps w;
        trace := trace w
                 ++ [Enter Download url title duration statusMsg;
                     Ytdl url true [lit "highest"];
                     CreateWriteStream filepath;
                     Pipe filepath] |}).
Proof.
  intros Hf filepath. subst filepath.
  unfold V1.downloadVideo. rewrite run_emit_bind.
  erewrite bind_Return by apply run_now. cbv zeta. cbn [steps].
  erewrite bind_Return by apply run_ytdl.
  erewrite bind_Return by apply run_createWriteStream.
  erewrite bind_Throw_run by (apply run_pipe_fail, Hf).
  cbn [chat files steps trace]. rewrite <- !app_assoc. reflexivity.
Qed.

(** ** A streaming attempt that succeeds *)

Lemma off_disk_app t1 t2 : off_disk t1 -> off_disk t2 -> off_disk (t1 ++ t2).
Proof. unfold off_disk. intros H1 H2. now rewrite existsb_app, H1, H2. Qed.

#[local] Instance off_disk_closed : Closed off_disk.
Proof. split; [reflexivity | exact off_disk_app]. Qed.

Lemma V1_stream_attempt_off_disk e url title duration statusMsg :
  emits off_disk (V1.stream_attempt e url title duration statusMsg).
Proof. unfold V1.stream_attempt. shape. Qed.

Lemma V2_stream_attempt_off_disk e url title duration statusMsg :
  emits off_disk (V2.stream_attempt e url title duration statusMsg).
Proof. unfold V2.stream_attempt. shape. Qed.

Lemma V2_stream_attempt_quiet e url title duration statusMsg :
  emits quiet (V2.stream_attempt e url title duration statusMsg).
Proof. unfold V2.stream_attempt. shape. Qed.

Lemma keeps_files_bind {A B} (m : io A) (k : A -> io B) :
  keeps_files m -> (forall a, keeps_files (k a)) -> keeps_files (bind m k).
Proof.
  intros Hm Hk w. unfold bind. specialize (Hm w).
  destruct (m w) as [[a | err] w1]; cbn in Hm; [| exact Hm].
  now rewrite Hk.
Qed.

Ltac keeps :=
  repeat first
    [ progress intros
    | progress cbv beta zeta
    | match goal with
      | |- keeps_files (bind _ _) => apply keeps_files_bind
      | |- keeps_files (match ?x with _ => _ end) => destruct x
      | |- keeps_files _ => same_files
      end ].

Lemma V1_stream_attempt_files e url title duration statusMsg :
  keeps_files (V1.stream_attempt e url title duration statusMsg).
Proof. unfold V1.stream_attempt. keeps. Qed.

Lemma V2_stream_attempt_files e url title duration statusMsg :
  keeps_files (V2.stream_attempt e url title duration statusMsg).
Proof. unfold V2.stream_attempt. keeps. Qed.

(** X15.  In both revisions, when the streaming attempt does not throw,
    [streamVideo] returns without entering [downloadVideo] and without a
    single call that reads or changes the scratch directory. *)
Theorem successful_stream_stays_off_disk (e : env) (url title : jsstring)
    (duration : number) (statusMsg : option nat) (w : world) :
  trace w = [] ->
  let w0 := snd (emit (Enter Stream url title duration statusMsg) w) in
  (fst (V1.stream_attempt e url title duration statusMsg w0) = Return tt ->
   let r := V1.streamVideo e url title duration statusMsg w in
   fst r = Return tt /\ files (snd r) = files w
   /\ off_disk (trace (snd r)) /\ callees (trace (snd r)) = [Stream])
  /\ (fst (V2.stream_attempt e url title duration statusMsg w0) = Return tt ->
      let r := V2.streamVideo e url title duration statusMsg w in
      fst r = Return tt /\ files (snd r) = files w
      /\ off_disk (trace (snd r)) /\ callees (trace (snd r)) = [Stream]).
Proof.
  intros Ht w0. subst w0. split.
  - intros E r. subst r.
    assert (Hrun : V1.streamVideo e url title duration statusMsg w
                   = V1.stream_attempt e url title duration statusMsg
                       (snd (emit (Enter Stream url title duration statusMsg)
                               w))).
    { unfold V1.streamVideo, bind at 1, try_catch. cbn [emit snd] in *.
      destruct (V1.stream_attempt e url title duration statusMsg _)
        as [[[] | err] w1]; [reflexivity | discriminate]. }
    rewrite Hrun.
    destruct (V1_stream_attempt_off_disk e url title duration statusMsg
                (snd (emit (Enter Stream url title duration statusMsg) w)))
      as [tl [Etl Hoff]].
    destruct (V1_stream_attempt_quiet e url title duration statusMsg
                (snd (emit (Enter Stream url title duration statusMsg) w)))
      as [tl' [Etl' Hq]].
    rewrite Etl in Etl'. apply app_inv_head in Etl'. subst tl'.
    split; [exact E |].
    rewrite V1_stream_attempt_files, Etl. cbn [emit snd files trace].
    rewrite Ht. cbn [app].
    refine (conj eq_refl (conj _ _)).
    + exact Hoff.
    + change (callees (Enter Stream url title duration statusMsg :: tl))
        with (Stream :: callees tl). now rewrite Hq.
  - intros E r. subst r.
    assert (Hrun : V2.streamVideo e url title duration statusMsg w
                   = V2.stream_attempt e url title duration statusMsg
                       (snd (emit (Enter Stream url title duration statusMsg)
                               w))).
    { unfold V2.streamVideo, bind at 1, try_catch. cbn [emit snd] in *.
      destruct (V2.stream_attempt e url title duration statusMsg _)
        as [[[] | err] w1]; [reflexivity | discriminate]. }
    rewrite Hrun.
    destruct (V2_stream_attempt_off_disk e url title duration statusMsg
                (snd (emit (Enter Stream url title duration statusMsg) w)))
      as [tl [Etl Hoff]].
    destruct (V2_stream_attempt_quiet e url title duration statusMsg
                (snd (emit (Enter Stream url title duration statusMsg) w)))
      as [tl' [Etl' Hq]].
    rewrite Etl in Etl'. apply app_inv_head in Etl'. subst tl'.
    split; [exact E |].
    rewrite V2_stream_attempt_files, Etl. cbn [emit snd files trace].
    rewrite Ht. cbn [app].
    refine (conj eq_refl (conj _ _)).
    + exact Hoff.
    + change (callees (Enter Stream url title duration statusMsg :: tl))
        with (Stream :: callees tl). now rewrite Hq.
Qed.

(** ** Where the files go *)

#[local] Instance in_tempDir_closed e : Closed (Forall (in_tempDir e)).
Proof. split; [constructor | intros t1 t2 H1 H2; now apply Forall_app]. Qed.

#[local] Instance short_title_closed : Closed (Forall short_title).
Proof. split; [constructor | intros t1 t2 H1 H2; now apply Forall_app]. Qed.

(** As [shape], with [side] for the properties of single calls. *)
Ltac shape_by side :=
  repeat first
    [ progress intros
    | progress cbv beta zeta
    | exact _
    | match goal with
      | |- emits _ (bind _ _) => apply emits_bind
      | |- emits _ (try_catch _ _) => apply emits_try_catch
      | |- emits _ (detached _) => apply emits_detached
      | |- emits _ (ret _) => apply emits_ret
      | |- emits _ (throw _) => apply emits_throw
      | |- emits _ (message_id _) => apply emits_message_id
      | |- emits _ (now _) => apply emits_now
      | |- emits _ (emit _) => apply emits_emit
      | |- emits _ (reply _ _) => apply emits_reply
      | |- emits _ (editMessageText _ _ _) => apply emits_editMessageText
      | |- emits _ (deleteMessage _ _) => apply emits_deleteMessage
      | |- emits _ (sendVideo _ _ _) => apply emits_sendVideo
      | |- emits _ (videoDetails_of _ _) => apply emits_videoDetails_of
      | |- emits _ (ytdl _ _ _) => apply emits_ytdl
      | |- emits _ (createWriteStream _) => apply emits_createWriteStream
      | |- emits _ (pipe_and_wait _ _) => apply emits_pipe_and_wait
      | |- emits _ (statSync_size _) => apply emits_statSync_size
      | |- emits _ (existsSync _) => apply emits_existsSync
      | |- emits _ (unlinkSync _) => apply emits_unlinkSync
      | |- emits _ (console _ _) => apply emits_console
      | |- emits _ (match ?x with _ => _ end) => destruct x
      | |- Forall _ [_] => constructor; [side | constructor]
      end ].

Ltac in_dir :=
  first [ exact I
        | eexists; split; [reflexivity | apply safe_filename] ].

Lemma V1_on_text_in_tempDir e text :
  emits (Forall (in_tempDir e)) (V1.on_text e text).
Proof.
  unfold V1.on_text, V1.streamVideo, V1.stream_attempt, V1.downloadVideo,
    V1.on_text_catch.
  shape_by in_dir.
Qed.

Lemma V2_on_text_in_tempDir e text :
  emits (Forall (in_tempDir e)) (V2.on_text e text).
Proof.
  unfold V2.on_text, V2.streamVideo, V2.stream_attempt, V2.downloadVideo,
    V2.on_text_catch.
  shape_by in_dir.
Qed.

(** X16.  Whatever the title and whatever the collaborators do, every
    call a request makes to the file system, and every upload from a
    file, addresses [tempDir/name] for a name made of ASCII letters,
    digits, underscores, hyphens and dots: a title cannot steer a write
    or a deletion out of the scratch directory. *)
Theorem files_stay_in_tempDir (e : env) (text : jsstring) (w : world) :
  trace w = [] ->
  Forall (in_tempDir e) (trace (snd (V1.on_text e text w)))
  /\ Forall (in_tempDir e) (trace (snd (V2.on_text e text w))).
Proof.
  intros Ht.
  destruct (V1_on_text_in_tempDir e text w) as [t1 [-> H1]].
  destruct (V2_on_text_in_tempDir e text w) as [t2 [-> H2]].
  rewrite Ht. split; assumption.
Qed.

Ltac short :=
  first [ exact I | unfold short_title; apply firstn_le_length ].

Lemma V1_on_text_short_title e text :
  emits (Forall short_title) (V1.on_text e text).
Proof.
  unfold V1.on_text, V1.streamVideo, V1.stream_attempt, V1.downloadVideo,
    V1.on_text_catch, slice0.
  shape_by short.
Qed.

Lemma V2_on_text_short_title e text :
  emits (Forall short_title) (V2.on_text e text).
Proof.
  unfold V2.on_text, V2.streamVideo, V2.stream_attempt, V2.downloadVideo,
    V2.on_text_catch, slice0.
  shape_by short.
Qed.

(** X17.  Whatever the resolver returns, the title with which a request
    enters a delivery function has at most 50 code units. *)
Theorem delivery_titles_are_short (e : env) (text : jsstring) (w : world) :
  trace w = [] ->
  Forall short_title (trace (snd (V1.on_text e text w)))
  /\ Forall short_title (trace (snd (V2.on_text e text w))).
Proof.
  intros Ht.
  destruct (V1_on_text_short_title e text w) as [t1 [-> H1]].
  destruct (V2_on_text_short_title e text w) as [t2 [-> H2]].
  rewrite Ht. split; assumption.
Qed.

(** ** When nothing goes wrong *)

Section Accepted.

Variable e : env.

Lemma run_sendVideo_stream url c w :
  transport e (steps w) (SendVideo (FromStream url) c) = None ->
  sendVideo e (FromStream url) c w
  = (Return tt,
     {| chat := chat w ++ [Video c]; files := files w;
        steps := S (steps w);
        trace := trace w ++ [SendVideo (FromStream url) c] |}).
Proof. intros E. unfold sendVideo, telegram, bind. now rewrite E. Qed.

Lemma run_sendVideo_file path size c w :
  transport e (steps w) (SendVideo (FromFile path) c) = None ->
  lookup path (files w) = Some size ->
  sendVideo e (FromFile path) c w
  = (Return tt,
     {| chat := chat w ++ [Video c]; files := files w;
        steps := S (steps w);
        trace := trace w ++ [SendVideo (FromFile path) c] |}).
Proof.
  intros E L. unfold sendVideo, telegram, bind. rewrite E. cbn.
  now rewrite L.
Qed.

Lemma run_deleteMessage id t w :
  transport e (steps w) (DeleteMessage id) = None ->
  nth_error (chat w) id = Some (Text t) ->
  deleteMessage e id w
  = (Return tt,
     {| chat := set_nth id Deleted (chat w); files := files w;
        steps := S (steps w); trace := trace w ++ [DeleteMessage id] |}).
Proof.
  intros E L. unfold deleteMessage, telegram, bind. rewrite E. cbn.
  now rewrite L.
Qed.

Lemma run_detached_reply t w :
  transport e (steps w) (SendMessage t) = None ->
  detached (reply e t) w
  = (Return tt,
     {| chat := chat w ++ [Text t]; files := files w;
        steps := S (steps w); trace := trace w ++ [SendMessage t] |}).
Proof. intros E. unfold detached. now rewrite run_reply. Qed.

End Accepted.

Lemma nth_error_mid2 {A} (c : list A) x y :
  nth_error ((c ++ [x]) ++ [y]) (List.length c) = Some x.
Proof. rewrite <- app_assoc. apply nth_error_mid. Qed.

Lemma set_nth_mid2 (c : list chat_message) x y z :
  set_nth (List.length c) z ((c ++ [x]) ++ [y]) = c ++ [z; y].
Proof. rewrite <- app_assoc. apply set_nth_mid. Qed.

(** X18.  A short video over a transport that accepts every call: in both
    revisions the request resolves after one streaming attempt, the chat
    gains the deleted status message, the video with the caption of the
    streaming path and the success notice, in this order, and no call
    touches the scratch directory. *)
Theorem short_video_is_streamed (e : env) (text : jsstring) (v : videoDetails)
    (w : world) :
  validateURL e (trim text) = true ->
  reliable e ->
  resolves e (trim text) v ->
  le (Number e (lengthSeconds v)) (Int 120) = true ->
  V1.on_text e text w
  = (Return tt,
     {| chat := chat w
                ++ [Deleted;
                    Video (V1.caption (slice0 50 (title v))
                             (Number e (lengthSeconds v)));
                    Text (sparkles ++ lit " Streamed successfully!")];
        files := files w;
        steps := 8 + steps w;
        trace :=
          trace w
          ++ [SendMessage (hourglass ++ lit " Fetching video info...");
              GetInfo (trim text);
              EditMessageText (List.length (chat w))
                (movie_camera ++ lit " " ++ slice0 50 (title v) ++ nl
                 ++ down_arrow ++ lit " Downloading...");
              Enter Stream (trim text) (slice0 50 (title v))
                (Number e (lengthSeconds v)) (Some (List.length (chat w)));
              Ytdl (trim text) false [lit "18"];
              SendVideo (FromStream (trim text))
                (V1.caption (slice0 50 (title v))
                   (Number e (lengthSeconds v)));
              DeleteMessage (List.length (chat w));
              SendMessage (sparkles ++ lit " Streamed successfully!")] |})
  /\ V2.on_text e text w
     = (Return tt,
        {| chat := chat w
                   ++ [Deleted;
                       Video (V2.stream_caption (slice0 50 (title v))
                                (Number e (lengthSeconds v)));
                       Text (sparkles ++ lit " Video streamed successfully!")];
           files := files w;
           steps := 9 + steps w;
           trace :=
             trace w
             ++ [SendMessage (hourglass ++ lit " Fetching video info...");
                 GetInfo (trim text);
                 EditMessageText (List.length (chat w))
                   (V2.preparing_text (slice0 50 (title v))
                      (Number e (lengthSeconds v)));
                 Enter Stream (trim text) (slice0 50 (title v))
                   (Number e (lengthSeconds v)) (Some (List.length (chat w)));
                 EditMessageText (List.length (chat w))
                   (movie_camera ++ lit " " ++ slice0 50 (title v) ++ nl
                    ++ satellite ++ lit " Streaming...");
                 Ytdl (trim text) false [lit "18"; lit "22"; lit "137+140"];
                 SendVideo (FromStream (trim text))
                   (V2.stream_caption (slice0 50 (title v))
                      (Number e (lengthSeconds v)));
                 DeleteMessage (List.length (chat w));
                 SendMessage
                   (sparkles ++ lit " Video streamed successfully!")] |}).
Proof.
  intros Hv Hrel Hr Hd. split.
  - rewrite (V1_on_text_selector e text v w Hv
               (fun t => Hrel _) Hr (fun t => Hrel _)).
    cbv zeta. rewrite Hd.
    unfold V1.streamVideo, V1.stream_attempt, at_selector.
    unfold try_catch at 1. rewrite run_emit_bind.
    erewrite try_bind_Return by apply run_ytdl.
    erewrite try_bind_Return by (apply run_sendVideo_stream, Hrel).
    cbn [message_id].
    erewrite (try_bind_Return (ret _)) by reflexivity.
    erewrite try_bind_Return;
      [| eapply run_deleteMessage; [apply Hrel | apply nth_error_mid2]].
    unfold try_catch. rewrite run_detached_reply by apply Hrel.
    cbn [chat files steps trace].
    rewrite set_nth_mid2, <- !app_assoc. reflexivity.
  - rewrite (V2_on_text_selector e text v w Hv
               (fun t => Hrel _) Hr (fun t => Hrel _)).
    cbv zeta. rewrite Hd.
    unfold V2.streamVideo, V2.stream_attempt, at_selector.
    unfold try_catch at 1. rewrite run_emit_bind.
    cbn [message_id].
    erewrite (try_bind_Return (ret _)) by reflexivity.
    erewrite try_bind_Return;
      [| eapply run_editMessageText; [apply Hrel | apply nth_error_snoc]].
    erewrite try_bind_Return by apply run_ytdl.
    erewrite try_bind_Return by (apply run_sendVideo_stream, Hrel).
    erewrite (try_bind_Return (ret _)) by reflexivity.
    erewrite try_bind_Return;
      [| eapply run_deleteMessage;
         [apply Hrel | cbn [chat]; rewrite set_nth_snoc;
                       apply nth_error_mid2]].
    unfold try_catch. rewrite run_detached_reply by apply Hrel.
    cbn [chat files steps trace].
    rewrite set_nth_snoc, set_nth_mid2, <- !app_assoc. reflexivity.
Qed.

(** X19.  A long video of at most 48 MB over a transport that accepts
    every call, from an empty scratch directory: in both revisions the
    request resolves, the chat gains the deleted status message, the
    video with the caption of the download path and the success notice,
    in this order; one file is written, measured, uploaded and removed,
    and the scratch directory is empty again. *)
Theorem long_video_is_downloaded (e : env) (text : jsstring) (v : videoDetails)
    (size : N) (w : world) :
  validateURL e (trim text) = true ->
  reliable e ->
  resolves e (trim text) v ->
  le (Number e (lengthSeconds v)) (Int 120) = false ->
  completes e size ->
  (size <= ceiling)%N ->
  files w = [] ->
  let title := slice0 50 (title v) in
  let duration := Number e (lengthSeconds v) in
  let id := List.length (chat w) in
  let notice := check_mark ++ lit " Downloaded & sent successfully!" in
  let downloading :=
    movie_camera ++ lit " " ++ title ++ nl
    ++ down_arrow ++ lit " Downloading..." in
  let r1 := V1.on_text e text w in
  let r2 := V2.on_text e text w in
  (fst r1 = Return tt
   /\ chat (snd r1)
      = chat w ++ [Deleted; Video (V1.caption title duration); Text notice]
   /\ files (snd r1) = []
   /\ exists filepath,
        trace (snd r1)
        = trace w
          ++ [SendMessage (hourglass ++ lit " Fetching video info...");
              GetInfo (trim text);
              EditMessageText id downloading;
              Enter Download (trim text) title duration (Some id);
              Ytdl (trim text) true [lit "highest"];
              CreateWriteStream filepath;
              Pipe filepath;
              StatSync filepath;
              SendVideo (FromFile filepath) (V1.caption title duration);
              UnlinkSync filepath;
              DeleteMessage id;
              SendMessage notice])
  /\ (fst r2 = Return tt
      /\ chat (snd r2)
         = chat w
           ++ [Deleted;
               Video (V2.download_caption title duration (sizeMB_of size));
               Text notice]
      /\ files (snd r2) = []
      /\ exists filepath,
           trace (snd r2)
           = trace w
             ++ [SendMessage (hourglass ++ lit " Fetching video info...");
                 GetInfo (trim text);
                 EditMessageText id (V2.preparing_text title duration);
                 Enter Download (trim text) title duration (Some id);
                 EditMessageText id downloading;
                 Ytdl (trim text) true
                   [lit "highestvideo[height<=720]+bestaudio[ext=m4a]/best[ext=mp4]"];
                 CreateWriteStream filepath;
                 Pipe filepath;
                 StatSync filepath;
                 SendVideo (FromFile filepath)
                   (V2.download_caption title duration (sizeMB_of size));
                 UnlinkSync filepath;
                 DeleteMessage id;
                 SendMessage notice]).
Proof.
  intros Hv Hrel Hr Hd Hc Hs Hf title duration id notice downloading r1 r2.
  subst title duration id notice downloading r1 r2.
  apply N.leb_le in Hs.
  split.
  - rewrite (V1_on_text_selector e text v w Hv
               (fun t => Hrel _) Hr (fun t => Hrel _)).
    cbv zeta. rewrite Hd. unfold try_catch.
    rewrite V1_downloadVideo_measured with (s := size) by exact Hc.
    rewrite over_48_spec, Hs. cbn [negb]. unfold at_selector.
    cbn [chat files steps trace].
    erewrite bind_Return;
      [| eapply run_sendVideo_file; [apply Hrel | apply lookup_put]].
    erewrite bind_Return; [| eapply run_unlinkSync; apply lookup_put].
    cbn [message_id].
    erewrite (bind_Return (ret _)) by reflexivity.
    erewrite bind_Return;
      [| eapply run_deleteMessage; [apply Hrel | apply nth_error_mid2]].
    rewrite run_detached_reply by apply Hrel.
    cbn [fst snd chat files steps trace].
    rewrite set_nth_mid2, remove_put, Hf, <- !app_assoc.
    refine (conj eq_refl (conj eq_refl (conj eq_refl _))).
    eexists. reflexivity.
  - rewrite (V2_on_text_selector e text v w Hv
               (fun t => Hrel _) Hr (fun t => Hrel _)).
    cbv zeta. rewrite Hd. unfold try_catch.
    rewrite V2_downloadVideo_measured
      with (s := size) (old := V2.preparing_text (slice0 50 (title v))
                                 (Number e (lengthSeconds v)));
      [| exact Hc | apply nth_error_snoc | intros t; apply Hrel].
    rewrite over_48_spec, Hs. cbn [negb]. unfold at_selector.
    cbn [chat files steps trace]. rewrite set_nth_snoc.
    erewrite try_bind_Return;
      [| eapply run_sendVideo_file; [apply Hrel | apply lookup_put]].
    erewrite try_bind_Return; [| eapply run_unlinkSync; apply lookup_put].
    cbn [message_id].
    erewrite (try_bind_Return (ret _)) by reflexivity.
    erewrite try_bind_Return;
      [| eapply run_deleteMessage; [apply Hrel | apply nth_error_mid2]].
    unfold try_catch. rewrite run_detached_reply by apply Hrel.
    cbn [fst snd chat files steps trace].
    rewrite set_nth_mid2, remove_put, Hf, <- !app_assoc.
    refine (conj eq_refl (conj eq_refl (conj eq_refl _))).
    eexists. reflexivity.
Qed.

(** ** Worked runs of the further properties *)

Lemma status_reply_refused_aborts_witness :
  fst (V1.on_text (studio (zoo "19") MB messages_refused) zoo_url idle)
  = Throw (Error (lit "ETIMEDOUT"))
  /\ trace (snd (V2.on_text (studio (zoo "19") MB messages_refused)
                   zoo_url idle))
     = [SendMessage (hourglass ++ lit " Fetching video info...")].
Proof.
  destruct (status_reply_refused_aborts
              (studio (zoo "19") MB messages_refused) zoo_url
              (Error (lit "ETIMEDOUT")) idle) as [H1 H2];
    [vm_compute; reflexivity | intros t; reflexivity |].
  rewrite H1, H2. split; reflexivity.
Defined.

Lemma metadata_failure_is_reported_witness :
  chat (snd (V1.on_text unavailable zoo_url idle))
  = [Text (cross_mark ++ lit " Failed to process video")]
  /\ chat (snd (V2.on_text unavailable zoo_url idle))
     = [Text (processing_failed_text (Error (lit "Video unavailable")))].
Proof.
  destruct (metadata_failure_is_reported unavailable zoo_url
              (Error (lit "Video unavailable")) idle)
    as [(_ & H1 & _) (_ & H2 & _)];
    [ vm_compute; reflexivity | intros t k; reflexivity
    | intros k; reflexivity | intros t k; reflexivity | ].
  exact (conj H1 H2).
Defined.

Lemma V1_request_never_rejects_witness :
  fst (V1.on_text (studio (zoo "212") (10 * MB) upload_refused) zoo_url idle)
  = Return tt.
Proof.
  apply V1_request_never_rejects; intros; intros k; reflexivity.
Defined.

Lemma V2_request_rejects_only_after_stream_witness :
  fst (V2.on_text (studio (zoo "19") MB stream_refused) zoo_url idle)
  = Return tt
  \/ selected (trace (snd (V2.on_text (studio (zoo "19") MB stream_refused)
                             zoo_url idle))) = Some Stream.
Proof.
  apply V2_request_rejects_only_after_stream;
    [reflexivity | intros t k; reflexivity | intros id t k; reflexivity].
Defined.


Lemma attempts_bounded_witness :
  one_of_each
    (callees (trace (snd (V1.on_text (studio (zoo "19") MB stream_refused)
                            zoo_url idle))))
  /\ one_of_each
       (callees (trace (snd (V2.on_text (studio (zoo "19") MB stream_refused)
                               zoo_url idle)))).
Proof. apply attempts_bounded. reflexivity. Defined.

Lemma fallback_keeps_arguments_witness :
  Forall (same_call zoo_url (lit "Me at the zoo") (Int 19) (Some 0%nat))
    (trace (snd (V1.streamVideo (studio (zoo "19") MB stream_refused)
                   zoo_url (lit "Me at the zoo") (Int 19) (Some 0%nat)
                   waiting)))
  /\ Forall (same_request zoo_url (lit "Me at the zoo") (Int 19))
       (trace (snd (V2.streamVideo (studio (zoo "19") MB stream_refused)
                      zoo_url (lit "Me at the zoo") (Int 19) (Some 0%nat)
                      waiting))).
Proof. apply fallback_keeps_arguments. reflexivity. Defined.

Lemma V1_falls_back_exactly_on_failure_witness :
  callees (trace (snd (V1.streamVideo (studio (zoo "19") MB stream_refused)
                         zoo_url (lit "Me at the zoo") (Int 19) (Some 0%nat)
                         waiting))) = [Stream; Download]
  /\ callees (trace (snd (V1.streamVideo (studio (zoo "19") MB no_fault)
                            zoo_url (lit "Me at the zoo") (Int 19)
                            (Some 0%nat) waiting))) = [Stream].
Proof.
  split.
  - exact (V1_falls_back_exactly_on_failure
             (studio (zoo "19") MB stream_refused) zoo_url
             (lit "Me at the zoo") (Int 19) (Some 0%nat) waiting eq_refl).
  - exact (V1_falls_back_exactly_on_failure
             (studio (zoo "19") MB no_fault) zoo_url
             (lit "Me at the zoo") (Int 19) (Some 0%nat) waiting eq_refl).
Defined.

Lemma V2_failed_stream_is_final_witness :
  exists err,
    fst (V2.streamVideo (studio (zoo "19") MB stream_refused) zoo_url
           (lit "Me at the zoo") (Int 19) (Some 0%nat) waiting)
    = Throw err.
Proof.
  refine (proj1 (V2_failed_stream_is_final
                   (studio (zoo "19") MB stream_refused) zoo_url
                   (lit "Me at the zoo") (Int 19) (Some 0%nat) waiting
                   (snd (V2.stream_attempt
                           (studio (zoo "19") MB stream_refused) zoo_url
                           (lit "Me at the zoo") (Int 19) (Some 0%nat)
                           (snd (emit (Enter Stream zoo_url
                                         (lit "Me at the zoo") (Int 19)
                                         (Some 0%nat)) waiting))))
                   (Error (lit "socket hang up")) _)).
  vm_compute. reflexivity.
Defined.



Lemma V1_transfer_error_escapes_witness :
  fst (V1.downloadVideo (broken_studio (zoo "212") 4096) zoo_url
         (lit "Me at the zoo") (Int 212) (Some 0%nat) waiting)
  = Throw (Error (lit "aborted"))
  /\ files (snd (V1.downloadVideo (broken_studio (zoo "212") 4096) zoo_url
                   (lit "Me at the zoo") (Int 212) (Some 0%nat) waiting))
     = [(zoo_file, 4096%N)].
Proof.
  rewrite (V1_transfer_error_escapes (broken_studio (zoo "212") 4096)
             zoo_url (lit "Me at the zoo") (Int 212) (Some 0%nat)
             (Error (lit "aborted")) (Some 4096%N) waiting
             (fun k => eq_refl)).
  split; vm_compute; reflexivity.
Defined.

Lemma successful_stream_stays_off_disk_witness :
  off_disk (trace (snd (V1.streamVideo (studio (zoo "19") MB no_fault)
                          zoo_url (lit "Me at the zoo") (Int 19) (Some 0%nat)
                          waiting)))
  /\ off_disk (trace (snd (V2.streamVideo (studio (zoo "19") MB no_fault)
                             zoo_url (lit "Me at the zoo") (Int 19)
                             (Some 0%nat) waiting))).
Proof.
  destruct (successful_stream_stays_off_disk (studio (zoo "19") MB no_fault)
              zoo_url (lit "Me at the zoo") (Int 19) (Some 0%nat) waiting
              eq_refl) as [H1 H2].
  split.
  - apply H1. vm_compute. reflexivity.
  - apply H2. vm_compute. reflexivity.
Defined.

Lemma files_stay_in_tempDir_witness :
  Forall (in_tempDir (studio (zoo "212") (10 * MB) no_fault))
    (trace (snd (V1.on_text (studio (zoo "212") (10 * MB) no_fault)
                   zoo_url idle)))
  /\ Forall (in_tempDir (studio (zoo "212") (10 * MB) no_fault))
       (trace (snd (V2.on_text (studio (zoo "212") (10 * MB) no_fault)
                      zoo_url idle))).
Proof. apply files_stay_in_tempDir. reflexivity. Defined.

Lemma delivery_titles_are_short_witness :
  Forall short_title
    (trace (snd (V1.on_text (studio remaster MB no_fault) zoo_url idle)))
  /\ Forall short_title
       (trace (snd (V2.on_text (studio remaster MB no_fault) zoo_url idle))).
Proof. apply delivery_titles_are_short. reflexivity. Defined.

Lemma short_video_is_streamed_witness :
  chat (snd (V1.on_text (studio (zoo "19") MB no_fault) zoo_url idle))
  = [Deleted;
     Video (movie_camera ++ lit " Me at the zoo" ++ nl
            ++ stopwatch ++ lit " 0:19");
     Text (sparkles ++ lit " Streamed successfully!")]
  /\ chat (snd (V2.on_text (studio (zoo "19") MB no_fault) zoo_url idle))
     = [Deleted;
        Video (movie_camera ++ lit " Me at the zoo" ++ nl
               ++ stopwatch ++ lit " 0:19" ++ nl
               ++ sparkles ++ lit " Streamed instantly!");
        Text (sparkles ++ lit " Video streamed successfully!")].
Proof.
  destruct (short_video_is_streamed (studio (zoo "19") MB no_fault) zoo_url
              (zoo "19") idle) as [H1 H2];
    [ vm_compute; reflexivity | intros ev k; reflexivity
    | intros k; reflexivity | vm_compute; reflexivity | ].
  rewrite H1, H2. split; vm_compute; reflexivity.
Defined.

Lemma long_video_is_downloaded_witness :
  chat (snd (V2.on_text (studio (zoo "212") (10 * MB) no_fault) zoo_url idle))
  = [Deleted;
     Video (movie_camera ++ lit " Me at the zoo" ++ nl
            ++ stopwatch ++ lit " 3:32" ++ nl
            ++ inbox_tray ++ lit " 10.0MB");
     Text (check_mark ++ lit " Downloaded & sent successfully!")]
  /\ files (snd (V1.on_text (studio (zoo "212") (10 * MB) no_fault)
                   zoo_url idle)) = [].
Proof.
  destruct (long_video_is_downloaded (studio (zoo "212") (10 * MB) no_fault)
              zoo_url (zoo "212") (10 * MB) idle)
    as [(_ & _ & F1 & _) (_ & C2 & _)];
    [ vm_compute; reflexivity | intros ev k; reflexivity
    | intros k; reflexivity | vm_compute; reflexivity
    | intros k; reflexivity | vm_compute; discriminate | reflexivity | ].
  split; [| exact F1].
  cbv zeta in C2. rewrite C2. vm_compute. reflexivity.
Defined.

Lemma V1_status_resolved_witness :
  exists rest,
    chat (snd (V1.on_text (studio (zoo "212") (10 * MB) upload_refused)
                 zoo_url idle))
    = [] ++ Text (cross_mark ++ lit " Failed to process video") :: rest.
Proof.
  destruct (V1_status_resolved (studio (zoo "212") (10 * MB) upload_refused)
              zoo_url idle) as [[rest [H D]] | [H | [rest H]]];
    [ vm_compute; reflexivity | intros t k; reflexivity
    | intros id t k; reflexivity | intros id k; reflexivity | | | ].
  - exfalso. vm_compute in H. discriminate.
  - exact H.
  - exfalso. vm_compute in H. discriminate.
Defined.

Lemma V2_downloadVideo_too_large_witness :
  nth_error
    (chat (snd (V2.downloadVideo (studio (zoo "212") (49 * MB) no_fault)
                  zoo_url (lit "Me at the zoo") (Int 212) (Some 0%nat)
                  waiting))) 0
  = Some (Text (package ++ lit " Video too large (49.0MB)" ++ nl
                ++ lit "Max: 48MB")).
Proof.
  destruct (V2_downloadVideo_too_large
              (studio (zoo "212") (49 * MB) no_fault) zoo_url
              (lit "Me at the zoo") (Int 212) 0
              (hourglass ++ lit " Fetching video info...") (49 * MB) waiting)
    as (_ & H & _);
    [ reflexivity | intros k; reflexivity | vm_compute; reflexivity
    | reflexivity | intros t k; reflexivity | ].
  rewrite H. vm_compute. reflexivity.
Defined.
